(** * Learning-curve driver ([LearningCurves/main_lrn_crv.py])

    A shallow embedding of the driver script that loads one data source,
    scales its feature matrix, configures a model and hands everything to
    the learning-curve engine.  The driver is sequential Python with
    exceptions and calls into external libraries (pathlib, pandas,
    scikit-learn, the repository's [utils], [classlogger] and [lrn_crv]).

    - Python values that flow into keyword dictionaries are [PyVal];
      dictionaries are [gmap string PyVal].
    - Every call that leaves the script is recorded as an [Event]; the
      libraries' answers come from an environment record [Env].
    - [run] lives in a small trace-and-exception monad [M]. *)

From Stdlib Require Import ZArith String Ascii List Lia Floats DecimalString Sorted.
From stdpp Require Import gmap strings list.
Import ListNotations.

#[local] Set Warnings "-inexact-float".
#[local] Open Scope Z_scope.
#[local] Open Scope string_scope.

(* ===================================================================== *)
(** ** Python values, truthiness and string helpers *)
(* ===================================================================== *)

(** The values the driver stores in keyword dictionaries.  [PyLogger p] is
    the [lg.logger] object of the [Logger] opened on log file [p]. *)
Inductive PyVal :=
| PyNone
| PyBool (b : bool)
| PyInt (z : Z)
| PyFloat (f : float)
| PyStr (s : string)
| PyLogger (logfile : string).

(** Python truth value testing: [None], [False], [0], [0.0] and the empty
    string are false, every other value is true. *)
Definition truthy (v : PyVal) : bool :=
  match v with
  | PyNone => false
  | PyBool b => b
  | PyInt z => negb (z =? 0)%Z
  | PyFloat f => negb (PrimFloat.eqb f 0%float)
  | PyStr s => negb (String.eqb s "")
  | PyLogger _ => true
  end.

(** [a or b] yields [a] when [a] is true and [b] otherwise. *)
Definition py_or (a b : PyVal) : PyVal := if truthy a then a else b.

(** [==] between two strings. *)
Definition py_eq_str (a b : string) : PyVal := PyBool (String.eqb a b).

(** [needle in hay] on strings. *)
Fixpoint contains (needle hay : string) : bool :=
  if String.prefix needle hay then true
  else match hay with
       | EmptyString => false
       | String _ rest => contains needle rest
       end.

(** [str(n)] for an integer. *)
Definition str_of_Z (z : Z) : string := NilZero.string_of_int (Z.to_int z).

(** [s.split('_')[0]]: the text before the first underscore. *)
Fixpoint split_underscore_0 (s : string) : string :=
  match s with
  | EmptyString => EmptyString
  | String c rest =>
      if Ascii.eqb c "_"%char then EmptyString
      else String c (split_underscore_0 rest)
  end.

(** ['=' * n]. *)
Fixpoint str_repeat (s : string) (n : nat) : string :=
  match n with
  | O => ""
  | S n' => s ++ str_repeat s n'
  end.

(* ===================================================================== *)
(** ** Exceptions and the trace monad *)
(* ===================================================================== *)

Inductive exn :=
| TypeError
| ValueError (msg : string)
| NameError (name : string)
| UnboundLocalError (name : string)
| KeyError (key : string)
| AttributeError (attr : string)
| LibraryError (what : string).

(** A value of type [int] or [str]: [--cv_folds] defaults to the integer
    5 and is a string when given on the command line. *)
Inductive IntOrStr :=
| AsInt (z : Z)
| AsStr (s : string).

Definition py_str (v : IntOrStr) : string :=
  match v with
  | AsInt z => str_of_Z z
  | AsStr s => s
  end.

(** The dictionary [vars(parse_args(argv))]: one field per option that
    [parse_args] declares. *)
Record Args := {
  dirpath : option string;
  target_name : string;
  cell_features : list string;
  drug_features : list string;
  other_features : list string;
  cv_method : string;
  cv_folds : IntOrStr;
  model_name : string;
  epochs : Z;
  batch_size : Z;
  dr_rate : float;
  scaler : option string;
  opt : string;
  clr_mode : option string;
  clr_base_lr : float;
  clr_max_lr : float;
  clr_gamma : float;
  n_shards : Z;
  n_jobs : Z
}.

(** A pandas data frame: named columns over rows of numbers. *)
Record DataFrame := {
  columns : list string;
  rows : list (list float)
}.

Inductive Scaler := StandardScaler | MinMaxScaler | RobustScaler.

(** The keyword arguments of [LearningCurve(...)]. *)
Record LearningCurveArgs := {
  lc_X : DataFrame;
  lc_Y : DataFrame;
  lc_cv : PyVal;
  lc_cv_lists : DataFrame * DataFrame;
  lc_n_shards : Z;
  lc_shard_step_scale : string;
  lc_args : Args;
  lc_logger : PyVal;
  lc_outdir : string
}.

(** The keyword arguments of [lc.trn_learning_curve(...)]. *)
Record TrnArgs := {
  trn_framework : string;
  trn_mltype : string;
  trn_model_name : string;
  trn_init_kwargs : gmap string PyVal;
  trn_fit_kwargs : gmap string PyVal;
  trn_clr_keras_kwargs : gmap string PyVal;
  trn_n_jobs : Z;
  trn_random_state : Z
}.

Inductive LogMsg :=
| MsgText (s : string)
| MsgArgs (a : Args)
| MsgRuntime.

(** The calls that leave the script, in the order they are made. *)
Inductive Event :=
| EvIsFile (p : string)
| EvReadParquet (p : string)
| EvReadCsv (p : string)
| EvFitTransform (sc : Scaler) (x : DataFrame)
| EvMakedirs (p : string)
| EvLogger (p : string)
| EvLogInfo (m : LogMsg)
| EvDumpDict (a : Args) (p : string)
| EvLearningCurve (a : LearningCurveArgs)
| EvTrnLearningCurve (a : LearningCurveArgs) (t : TrnArgs)
| EvKillLogger
| EvPrint (s : string).

Definition Trace := list Event.

(** A computation yields the events it performed and either the exception
    that stopped it or its value. *)
Definition M (A : Type) : Type := Trace * (exn + A).

Definition ret {A} (a : A) : M A := ([], inr a).
Definition raise {A} (e : exn) : M A := ([], inl e).

Definition bind {A B} (m : M A) (k : A -> M B) : M B :=
  match m with
  | (t, inl e) => (t, inl e)
  | (t, inr a) => let '(t', r) := k a in ((t ++ t')%list, r)
  end.

Notation "'let*' x ':=' m 'in' k" := (bind m (fun x => k))
  (at level 10, x binder, m at level 100, k at level 200).

(** An external call: the event is recorded, then the library answers
    with a value or fails; a failure inside a library surfaces as
    [LibraryError]. *)
Definition call {A} (ev : Event) (answer : string + A) : M A :=
  ([ev], match answer with
         | inl what => inl (LibraryError what)
         | inr a => inr a
         end).

(** An external call made for its effect only. *)
Definition call_ (ev : Event) (failure : option string) : M unit :=
  call ev (match failure with Some what => inl what | None => inr tt end).

Definition trace {A} (m : M A) : Trace := fst m.
Definition outcome {A} (m : M A) : exn + A := snd m.

(* ===================================================================== *)
(** ** The environment: libraries, file system and clock *)
(* ===================================================================== *)

(** [datetime.now()], the fields [create_outdir] reads. *)
Record DateTime := {
  year : Z; month : Z; day : Z; hour : Z; minute : Z
}.

(** What the world outside the script answers.  Paths are kept as their
    string form; [pathlib]'s operations are library functions.  A call that
    can fail answers [inl what] (or [Some what]), naming its failure. *)
Record Env := {
  (* pathlib *)
  Path : string -> string;
  joinpath : string -> string -> string;
  path_name : string -> string;
  file_path : string;
  (* file system, pandas, numpy *)
  is_file : string -> bool;
  read_parquet : string -> string + DataFrame;
  read_csv : string -> string + DataFrame;
  astype_float32 : float -> float;
  (* scikit-learn *)
  fit_transform : Scaler -> DataFrame -> string + list (list float);
  (* datetime, os *)
  now : DateTime;
  makedirs : string -> option string;
  (* classlogger, utils, lrn_crv *)
  Logger : string -> option string;
  dump_dict : Args -> string -> option string;
  LearningCurve : LearningCurveArgs -> option string;
  trn_learning_curve : LearningCurveArgs -> TrnArgs -> option string
}.

(** Module-level constants. *)
Definition SEED : Z := 42.
Definition PRJ_NAME (env : Env) : string := path_name env (file_path env).
Definition OUTDIR (env : Env) : string :=
  joinpath env (joinpath env (file_path env) "../../out/") (PRJ_NAME env).

(** [Path(x)]: [None] is rejected with a [TypeError]. *)
Definition Path_of (env : Env) (x : option string) : M string :=
  match x with
  | Some s => ret (Path env s)
  | None => raise TypeError
  end.

(* ===================================================================== *)
(** ** [create_outdir] *)
(* ===================================================================== *)

Definition nl : string := String (ascii_of_nat 10) "".

(** The time stamp [year-month-day_hH-mM] built from [datetime.now()]. *)
Definition timestamp (t : DateTime) : string :=
  String.concat ""
    [str_of_Z (year t); "-"; str_of_Z (month t); "-"; str_of_Z (day t);
     "_"; "h"; str_of_Z (hour t); "-"; "m"; str_of_Z (minute t)].

Definition create_outdir (env : Env) (outdir : string) (args : Args)
    (src : string) : M string :=
  let t := timestamp (now env) in
  let l := ([("cvf" ++ py_str (cv_folds args))%string] ++ cell_features args
            ++ drug_features args ++ [target_name args])%list in
  let l := match clr_mode args with
           | Some m => ([m] ++ l)%list
           | None => l
           end in
  let l := if contains "nn" (model_name args)
           then ([opt args] ++ l)%list else l in
  let name_sffx :=
    String.concat "." ([src] ++ [model_name args] ++ l)%list in
  let outdir := joinpath env (Path env outdir) (name_sffx ++ "_" ++ t) in
  let* _ := call_ (EvMakedirs outdir) (makedirs env outdir) in
  ret outdir.

(* ===================================================================== *)
(** ** Loading the data *)
(* ===================================================================== *)

(** [read_data_file], the helper nested in [run]: a missing file gives
    [None].  (The other nested helper, [get_file], is never called.) *)
Definition read_data_file (env : Env) (fpath : string)
    (file_format : string) : M (option DataFrame) :=
  let fpath := Path env fpath in
  let* present := call (EvIsFile fpath) (inr (is_file env fpath)) in
  if (present : bool) then
    if String.eqb file_format "csv" then
      let* df := call (EvReadCsv fpath) (read_csv env fpath) in
      ret (Some df)
    else if String.eqb file_format "parquet" then
      let* df := call (EvReadParquet fpath) (read_parquet env fpath) in
      ret (Some df)
    else raise (UnboundLocalError "df")
  else ret None.

(** Positions of the columns called [name]. *)
Fixpoint column_positions (name : string) (cols : list string) (i : nat)
    : list nat :=
  match cols with
  | [] => []
  | c :: cols' =>
      if String.eqb c name then i :: column_positions name cols' (S i)
      else column_positions name cols' (S i)
  end.

(** [df[[name]]]: the frame restricted to the columns called [name]; a
    [KeyError] when there is none. *)
Definition getitem_column (df : DataFrame) (name : string) : M DataFrame :=
  match column_positions name (columns df) 0 with
  | [] => raise (KeyError name)
  | pos =>
      ret {| columns := List.map (fun _ => name) pos;
             rows := List.map (fun r => omap (fun i => r !! i) pos) (rows df) |}
  end.

(** One entry of [dfs]: [(ydata, xdata, tr_id, vl_id)]. *)
Definition SrcData : Type :=
  DataFrame * option DataFrame * DataFrame * DataFrame.

(** The [if dirpath is not None: ... elif dname == 'combined': ...]
    statement; [dirpath] is the value of the local variable.  Evaluating
    the [elif] test already reads the undefined name [dname]. *)
Definition load_data (env : Env) (args : Args) (dirpath : option string)
    : M (list (string * SrcData)) :=
  match dirpath with
  | Some dirpath =>
      let target_name := target_name args in
      let cv_folds := cv_folds args in
      let* xdata :=
        read_data_file env (joinpath env dirpath "xdata.parquet") "parquet" in
      let* meta :=
        read_data_file env (joinpath env dirpath "meta.parquet") "parquet" in
      let* ydata := match meta with
                    | Some meta => getitem_column meta target_name
                    | None => raise TypeError
                    end in
      let tr_path := joinpath env dirpath (py_str cv_folds ++ "fold_tr_id.csv") in
      let* tr_id := call (EvReadCsv tr_path) (read_csv env tr_path) in
      let vl_path := joinpath env dirpath (py_str cv_folds ++ "fold_vl_id.csv") in
      let* vl_id := call (EvReadCsv vl_path) (read_csv env vl_path) in
      let src := split_underscore_0 (path_name env dirpath) in
      ret [(src, (ydata, xdata, tr_id, vl_id))]
  | None => raise (NameError "dname")
  end.

(* ===================================================================== *)
(** ** Feature scaling *)
(* ===================================================================== *)

(** The local variable [scaler] after the [if scaler is not None] block:
    still [None], still a string, or a scaler object. *)
Inductive ScalerVar :=
| SvNone
| SvStr (s : string)
| SvObj (sc : Scaler).

Definition select_scaler (s : option string) : ScalerVar :=
  match s with
  | None => SvNone
  | Some name =>
      if String.eqb name "stnd" then SvObj StandardScaler
      else if String.eqb name "minmax" then SvObj MinMaxScaler
      else if String.eqb name "rbst" then SvObj RobustScaler
      else SvStr name
  end.

(** [pd.DataFrame(data, columns=cols, dtype=np.float32)]. *)
Definition pd_DataFrame (env : Env) (data : list (list float))
    (cols : list string) : M DataFrame :=
  if forallb (fun r => Nat.eqb (length r) (length cols)) data then
    ret {| columns := cols;
           rows := List.map (List.map (astype_float32 env)) data |}
  else raise (ValueError "Shape of passed values").

Definition scale (env : Env) (args : Args) (xdata : option DataFrame)
    : M DataFrame :=
  let scaler := select_scaler (scaler args) in
  match xdata with
  | None => raise (AttributeError "columns")
  | Some xdata =>
      let cols := columns xdata in
      match scaler with
      | SvObj sc =>
          let* arr := call (EvFitTransform sc xdata) (fit_transform env sc xdata) in
          pd_DataFrame env arr cols
      | _ => raise (AttributeError "fit_transform")
      end
  end.

(* ===================================================================== *)
(** ** Model configuration *)
(* ===================================================================== *)

(** The arms of the [if/elif] chain on [model_name]; [BrNone] when no test
    succeeds. *)
Inductive Branch := BrLgbReg | BrNnReg | BrNnReg012 | BrNnReg34 | BrNone.

(** The test of the third arm,
    [model_name == 'nn_reg0' or 'nn_reg1' or 'nn_reg2']. *)
Definition cond_nn_reg012 (model_name : string) : PyVal :=
  py_or (py_or (py_eq_str model_name "nn_reg0") (PyStr "nn_reg1"))
        (PyStr "nn_reg2").

(** The test of the fourth arm, [model_name == 'nn_reg3' or 'nn_reg4']. *)
Definition cond_nn_reg34 (model_name : string) : PyVal :=
  py_or (py_eq_str model_name "nn_reg3") (PyStr "nn_reg4").

Definition select_branch (model_name : string) : Branch :=
  if truthy (py_eq_str model_name "lgb_reg") then BrLgbReg
  else if truthy (py_eq_str model_name "nn_reg") then BrNnReg
  else if truthy (cond_nn_reg012 model_name) then BrNnReg012
  else if truthy (cond_nn_reg34 model_name) then BrNnReg34
  else BrNone.

(** [framework], [init_kwargs] and [fit_kwargs]. *)
Definition ModelConfig : Type :=
  string * gmap string PyVal * gmap string PyVal.

(** The model-configuration step.  [None] stands for the three locals left
    unbound.  The second arm reads the name [attn], which nothing
    defines. *)
Definition ml_model_configs (args : Args) (xdata : DataFrame)
    (logger : PyVal) : M (option ModelConfig) :=
  let input_dim := PyInt (Z.of_nat (length (columns xdata))) in
  let nn_fit : gmap string PyVal :=
    {[ "batch_size" := PyInt (batch_size args);
       "epochs" := PyInt (epochs args);
       "verbose" := PyInt 1 ]} in
  match select_branch (model_name args) with
  | BrLgbReg =>
      ret (Some ("lightgbm",
                 {[ "n_jobs" := PyInt (n_jobs args);
                    "random_state" := PyInt SEED;
                    "logger" := logger ]},
                 {[ "verbose" := PyBool false ]}))
  | BrNnReg => raise (NameError "attn")
  | BrNnReg012 =>
      ret (Some ("keras",
                 {[ "input_dim" := input_dim;
                    "dr_rate" := PyFloat (dr_rate args);
                    "opt_name" := PyStr (opt args);
                    "logger" := logger ]},
                 nn_fit))
  | BrNnReg34 =>
      ret (Some ("keras",
                 {[ "in_dim_rna" := PyNone;
                    "in_dim_dsc" := PyNone;
                    "dr_rate" := PyFloat (dr_rate args);
                    "opt_name" := PyStr (opt args);
                    "logger" := logger ]},
                 nn_fit))
  | BrNone => ret None
  end.

(* ===================================================================== *)
(** ** [run] *)
(* ===================================================================== *)

(** [lg.logger.info(...)]; logging does not fail. *)
Definition log_info (m : LogMsg) : M unit := call_ (EvLogInfo m) None.

Definition py_opt_str (s : option string) : PyVal :=
  match s with
  | Some s => PyStr s
  | None => PyNone
  end.

(** The dictionary [clr_keras_kwargs] built at the top of [run]. *)
Definition clr_keras_kwargs_of (args : Args) : gmap string PyVal :=
  {[ "mode" := py_opt_str (clr_mode args);
     "base_lr" := PyFloat (clr_base_lr args);
     "max_lr" := PyFloat (clr_max_lr args);
     "gamma" := PyFloat (clr_gamma args) ]}.

(** The [ML type] block. *)
Definition derive_mltype (model_name : string) : M string :=
  if contains "reg" model_name then ret "reg"
  else if contains "cls" model_name then ret "cls"
  else raise (ValueError "model_name must contain 'reg' or 'cls'.").

(** The body of [for src, data in dfs.items()]. *)
Definition process_source (env : Env) (args : Args) (mltype : string)
    (clr_keras_kwargs : gmap string PyVal) (src : string) (data : SrcData)
    : M unit :=
  let '(ydata, xdata, tr_id, vl_id) := data in
  let model_name := model_name args in
  let n_jobs := n_jobs args in
  (* Scale *)
  let* xdata := scale env args xdata in
  (* Create outdir and logger *)
  let* run_outdir := create_outdir env (OUTDIR env) args src in
  let logfile := joinpath env run_outdir "logfile.log" in
  let* _ := call_ (EvLogger logfile) (Logger env logfile) in
  let lg_logger := PyLogger logfile in
  let* _ := log_info (MsgText ("File path: " ++ file_path env)) in
  let* _ := log_info (MsgArgs args) in
  let args_txt := joinpath env run_outdir "args.txt" in
  let* _ := call_ (EvDumpDict args args_txt) (dump_dict env args args_txt) in
  (* ML model configs *)
  let* config := ml_model_configs args xdata lg_logger in
  (* Learning curve *)
  let* _ := log_info (MsgText (nl ++ nl ++ str_repeat "=" 50)) in
  let* _ := log_info (MsgText ("Learning curves " ++ src ++ " ...")) in
  let* _ := log_info (MsgText (str_repeat "=" 50)) in
  let lc := {| lc_X := xdata; lc_Y := ydata; lc_cv := PyNone;
               lc_cv_lists := (tr_id, vl_id);
               lc_n_shards := n_shards args;
               lc_shard_step_scale := "log10";
               lc_args := args; lc_logger := lg_logger;
               lc_outdir := run_outdir |} in
  let* _ := call_ (EvLearningCurve lc) (LearningCurve env lc) in
  let* trn :=
    match config with
    | Some (framework, init_kwargs, fit_kwargs) =>
        ret {| trn_framework := framework; trn_mltype := mltype;
               trn_model_name := model_name;
               trn_init_kwargs := init_kwargs;
               trn_fit_kwargs := fit_kwargs;
               trn_clr_keras_kwargs := clr_keras_kwargs;
               trn_n_jobs := n_jobs; trn_random_state := SEED |}
    | None => raise (UnboundLocalError "framework")
    end in
  let* _ := call_ (EvTrnLearningCurve lc trn) (trn_learning_curve env lc trn) in
  let* _ := log_info MsgRuntime in
  call_ EvKillLogger None.

Fixpoint for_each {A} (l : list A) (body : A -> M unit) : M unit :=
  match l with
  | [] => ret tt
  | x :: l' => let* _ := body x in for_each l' body
  end.

Definition run (env : Env) (args : Args) : M unit :=
  let* dirpath := Path_of env (dirpath args) in
  let fea_list :=
    (cell_features args ++ drug_features args ++ other_features args)%list in
  let clr_keras_kwargs := clr_keras_kwargs_of args in
  let* mltype := derive_mltype (model_name args) in
  let* dfs := load_data env args (Some dirpath) in
  let* _ := for_each dfs
              (fun '(src, data) =>
                 process_source env args mltype clr_keras_kwargs src data) in
  call_ (EvPrint "Done.") None.

(* ===================================================================== *)
(** ** A concrete environment and command lines, for running the model *)
(* ===================================================================== *)

Module Demo.

(** POSIX-style joining for relative right operands. *)
Definition join (a b : string) : string := a ++ "/" ++ b.

(** The text after the last slash. *)
Fixpoint basename_aux (s acc : string) : string :=
  match s with
  | EmptyString => acc
  | String c rest =>
      if Ascii.eqb c "/"%char then basename_aux rest ""
      else basename_aux rest (acc ++ String c "")
  end.
Definition basename (s : string) : string := basename_aux s "".

Definition frame_x : DataFrame :=
  {| columns := ["g1"; "g2"];
     rows := [[1%float; 2%float]; [3%float; 4%float]; [5%float; 6%float]] |}.
Definition frame_meta : DataFrame :=
  {| columns := ["CELL"; "AUC"];
     rows := [[0%float; 0.5%float]; [1%float; 0.25%float]; [2%float; 0.75%float]] |}.
Definition frame_ids (l : list float) : DataFrame :=
  {| columns := ["f0"]; rows := List.map (fun i => [i]) l |}.

(** A world holding one data directory [/data/ccle_cv_simple]; every
    library call succeeds. *)
Definition env : Env :=
  {| Path := fun s => s;
     joinpath := join;
     path_name := basename;
     file_path := "/repo/src/LearningCurves";
     is_file := fun p =>
       String.eqb p "/data/ccle_cv_simple/xdata.parquet"
       || String.eqb p "/data/ccle_cv_simple/meta.parquet";
     read_parquet := fun p =>
       if String.eqb p "/data/ccle_cv_simple/xdata.parquet" then inr frame_x
       else if String.eqb p "/data/ccle_cv_simple/meta.parquet" then inr frame_meta
       else inl "FileNotFoundError";
     read_csv := fun p =>
       if String.eqb p "/data/ccle_cv_simple/5fold_tr_id.csv"
       then inr (frame_ids [0%float; 1%float])
       else if String.eqb p "/data/ccle_cv_simple/5fold_vl_id.csv"
       then inr (frame_ids [2%float])
       else inl "FileNotFoundError";
     astype_float32 := fun f => f;
     fit_transform := fun _ x => inr (rows x);
     now := {| year := 2019; month := 7; day := 4; hour := 9; minute := 30 |};
     makedirs := fun _ => None;
     Logger := fun _ => None;
     dump_dict := fun _ _ => None;
     LearningCurve := fun _ => None;
     trn_learning_curve := fun _ _ => None |}.

(** The defaults of [parse_args], with [--dirpath] given. *)
Definition args (model : string) : Args :=
  {| dirpath := Some "/data/ccle_cv_simple";
     target_name := "AUC";
     cell_features := ["rna"];
     drug_features := ["dsc"];
     other_features := [];
     cv_method := "simple";
     cv_folds := AsInt 5;
     model_name := model;
     epochs := 200;
     batch_size := 32;
     dr_rate := 0.2%float;
     scaler := Some "stnd";
     opt := "sgd";
     clr_mode := None;
     clr_base_lr := 1e-4%float;
     clr_max_lr := 1e-3%float;
     clr_gamma := 0.999994%float;
     n_shards := 5;
     n_jobs := 4 |}.

(** The same command line without [--dirpath]. *)
Definition args_no_dirpath (model : string) : Args :=
  {| dirpath := None;
     target_name := "AUC";
     cell_features := ["rna"];
     drug_features := ["dsc"];
     other_features := [];
     cv_method := "simple";
     cv_folds := AsInt 5;
     model_name := model;
     epochs := 200;
     batch_size := 32;
     dr_rate := 0.2%float;
     scaler := Some "stnd";
     opt := "sgd";
     clr_mode := None;
     clr_base_lr := 1e-4%float;
     clr_max_lr := 1e-3%float;
     clr_gamma := 0.999994%float;
     n_shards := 5;
     n_jobs := 4 |}.

End Demo.


(* ===================================================================== *)
(** ** Observations on traces *)
(* ===================================================================== *)

Definition is_engine (ev : Event) : bool :=
  match ev with
  | EvLearningCurve _ | EvTrnLearningCurve _ _ => true
  | _ => false
  end.

Definition is_fit_transform (ev : Event) : bool :=
  match ev with
  | EvFitTransform _ _ => true
  | _ => false
  end.

(** Events of the data-loading phase. *)
Definition is_load_event (ev : Event) : bool :=
  match ev with
  | EvIsFile _ | EvReadParquet _ | EvReadCsv _ => true
  | _ => false
  end.

(** The engine invocations recorded in a trace. *)
Definition trn_calls (tr : Trace) : list (LearningCurveArgs * TrnArgs) :=
  omap (fun ev => match ev with
                  | EvTrnLearningCurve lc t => Some (lc, t)
                  | _ => None
                  end) tr.

(** The engine constructions recorded in a trace. *)
Definition lc_calls (tr : Trace) : list LearningCurveArgs :=
  omap (fun ev => match ev with
                  | EvLearningCurve lc => Some lc
                  | _ => None
                  end) tr.


(* ===================================================================== *)
(** ** The learning-curve engine ([utils/lrn_crv.py])

    The engine that [run] calls is not part of the sources at hand; the
    two components below follow its specification. *)
(* ===================================================================== *)

Module ShardScheduler.
#[local] Open Scope Z_scope.

(** Modelled from the spec: the scale modes of the ShardConfig, whose
    engine-side declaration is missing from the sources. *)
Inductive ScaleMode := Linear | Log10.

Definition parse_scale (scale : string) : option ScaleMode :=
  if String.eqb scale "linear" then Some Linear
  else if String.eqb scale "log10" then Some Log10
  else None.

(** Integer [k]-th root, rounded down: the result is built bit by bit
    from the top, keeping a bit when the candidate's [k]-th power still
    fits under [x]. *)
Fixpoint iroot_bits (k : nat) (x : Z) (bits : nat) (r : Z) : Z :=
  match bits with
  | O => r
  | S b =>
      let c := r + 2 ^ Z.of_nat b in
      iroot_bits k x b (if c ^ Z.of_nat k <=? x then c else r)
  end.

Definition iroot (k : nat) (x : Z) : Z :=
  iroot_bits k x (S (Z.to_nat (Z.log2 x))) 0.

(** Modelled from the spec: the spacing of the log-scale grid, which is
    missing from the sources: two points per decade, the spacing of the
    specification's example (fold size 1000, five ticks, [log10]: about
    30, 100, 300, 1000). *)
Definition ticks_per_decade : nat := 2.

(** Modelled from the spec: the log-scale policy of the ShardScheduler,
    which is missing from the sources.  The [n] points are spaced
    geometrically, [m] to the decade, downwards from [hi = n_train]:
    point [k] is [hi / 10 ^ (k / m)] rounded down to an integer; they are
    listed in increasing order, so the last one is [hi] itself. *)
Definition log_points (m : nat) (hi : Z) (n : nat) : list Z :=
  List.map (fun k => iroot m (hi ^ Z.of_nat m / 10 ^ Z.of_nat k))
           (rev (seq 0 n)).

(** Modelled from the spec: the floor of the log-scale policy, missing
    from the sources: points below the minimum viable size are
    removed. *)
Definition at_least (floor : Z) (l : list Z) : list Z :=
  List.filter (fun x => floor <=? x) l.

(** Modelled from the spec: the linear-scale policy of the
    ShardScheduler, missing from the sources: evenly spaced integer
    fractions [i * n_train / n] of [n_train]. *)
Definition linear_points (hi : Z) (n : nat) : list Z :=
  List.map (fun i => Z.of_nat i * hi / Z.of_nat n) (seq 1 n).

(** Modelled from the spec: the removal of duplicate or non-increasing
    values, missing from the sources: a value is kept when it exceeds the
    last value kept ([prev]). *)
Fixpoint increasing_from (prev : Z) (l : list Z) : list Z :=
  match l with
  | [] => []
  | x :: l' =>
      if prev <? x then x :: increasing_from x l'
      else increasing_from prev l'
  end.

(** Modelled from the spec: the configuration errors of the scheduler,
    missing from the sources. *)
Inductive ConfigurationError :=
| InvalidScaleMode
| InvalidShardCount
| TooFewSamples.

(** Modelled from the spec: the ShardScheduler of the engine, missing
    from the sources.  [min_shard] is the framework-dependent minimum
    viable shard size.  A fold smaller than [min_shard], a tick count
    below one and an unknown scale mode are configuration errors; one
    tick gives [[n_train]]; otherwise the points of the scale policy are
    generated, for the log scale those between [min_shard] and [n_train]
    are kept, and duplicate or non-increasing values are removed. *)
Definition shard_sizes (min_shard n_train n_shards : Z) (scale : string)
    : ConfigurationError + list Z :=
  match parse_scale scale with
  | None => inl InvalidScaleMode
  | Some mode =>
      if n_shards <? 1 then inl InvalidShardCount
      else if n_train <? min_shard then inl TooFewSamples
      else if n_shards =? 1 then inr [n_train]
      else
        let n := Z.to_nat n_shards in
        inr (increasing_from 0
               match mode with
               | Linear => linear_points n_train n
               | Log10 =>
                   at_least min_shard (log_points ticks_per_decade n_train n)
               end)
  end.

End ShardScheduler.

Module ShardRunner.

(** Modelled from the spec: the FoldAssignment of the engine, missing
    from the sources: the externally supplied train/validation split. *)
Record FoldAssignment := {
  train_ids : list Z;
  validation_ids : list Z
}.

(** Modelled from the spec: the source of randomness the engine draws
    on, missing from the sources: the states of a generator, the state
    it is in right after it was seeded ([pin]), and the ordering of a
    list of sample identifiers that is drawn from a generator state,
    with the state the generator is left in. *)
Record RandomSource := {
  gen : Type;
  pin : Z -> gen;
  reorder : gen -> list Z -> list Z * gen
}.

(** Modelled from the spec: what persists between executions of a
    ShardRunner, missing from the sources: the state of the process-wide
    random number generator and the number of shards drawn so far. *)
Record RunnerState (R : RandomSource) := {
  rng_state : gen R;
  shards_drawn : nat
}.
Arguments rng_state {R} _.
Arguments shards_drawn {R} _.

(** Modelled from the spec: the shard-drawing step of the ShardRunner,
    missing from the sources.  The generator is pinned to the seed, the
    training fold is put in the order drawn from the pinned generator,
    and the shard is the first [size] identifiers in that order. *)
Definition draw_shard (R : RandomSource) (seed : Z) (size : nat)
    (fold : FoldAssignment) (st : RunnerState R)
    : list Z * RunnerState R :=
  let pinned := pin R seed in
  let '(ordered, g) := reorder R pinned (train_ids fold) in
  (firstn size ordered,
   {| rng_state := g; shards_drawn := S (shards_drawn st) |}).

(** Modelled from the spec: what the specification rules out, a fresh
    random resample per call: the ordering is drawn from the generator
    as the earlier calls left it. *)
Definition draw_fresh (R : RandomSource) (size : nat)
    (fold : FoldAssignment) (st : RunnerState R)
    : list Z * RunnerState R :=
  let '(ordered, g) := reorder R (rng_state st) (train_ids fold) in
  (firstn size ordered,
   {| rng_state := g; shards_drawn := S (shards_drawn st) |}).

(** Modelled from the spec: an execution of the runner, missing from the
    sources: the shards of the given sizes are drawn one after the
    other, each draw starting from the state the one before left. *)
Fixpoint run_shards (R : RandomSource) (seed : Z) (sizes : list nat)
    (fold : FoldAssignment) (st : RunnerState R)
    : list (list Z) * RunnerState R :=
  match sizes with
  | [] => ([], st)
  | size :: sizes' =>
      let '(shard, st1) := draw_shard R seed size fold st in
      let '(shards, st2) := run_shards R seed sizes' fold st1 in
      (shard :: shards, st2)
  end.

(** A linear congruential generator; the ordering it gives rotates the
    list by an offset read from the state. *)
Definition lcg_next (g : Z) : Z := (1103515245 * g + 12345) mod 2 ^ 31.

Definition lcg_reorder (g : Z) (l : list Z) : list Z * Z :=
  let k := Z.to_nat (lcg_next g mod Z.of_nat (length l)) in
  ((skipn k l ++ firstn k l)%list, lcg_next g).

Definition lcg : RandomSource :=
  {| gen := Z; pin := fun seed => seed mod 2 ^ 31; reorder := lcg_reorder |}.

(** A fold of five training and two validation samples. *)
Definition demo_fold : FoldAssignment :=
  {| train_ids := [10; 11; 12; 13; 14]%Z; validation_ids := [20; 21]%Z |}.

End ShardRunner.

(* ===================================================================== *)
(** ** More worlds and command lines *)
(* ===================================================================== *)

Module Scenarios.

(** The world of [Demo.env] with the set of existing files, the answer of
    [os.makedirs] and the answer of the training call left open. *)
Definition env_where (present : string -> bool)
    (mk : string -> option string)
    (trn : LearningCurveArgs -> TrnArgs -> option string) : Env :=
  {| Path := fun s => s;
     joinpath := Demo.join;
     path_name := Demo.basename;
     file_path := "/repo/src/LearningCurves";
     is_file := present;
     read_parquet := read_parquet Demo.env;
     read_csv := read_csv Demo.env;
     astype_float32 := fun f => f;
     fit_transform := fun _ x => inr (rows x);
     now := now Demo.env;
     makedirs := mk;
     Logger := fun _ => None;
     dump_dict := fun _ _ => None;
     LearningCurve := fun _ => None;
     trn_learning_curve := trn |}.

(** The data directory lacks [meta.parquet]. *)
Definition env_no_meta : Env :=
  env_where (String.eqb "/data/ccle_cv_simple/xdata.parquet")
            (fun _ => None) (fun _ _ => None).

(** The data directory lacks [xdata.parquet]. *)
Definition env_no_xdata : Env :=
  env_where (String.eqb "/data/ccle_cv_simple/meta.parquet")
            (fun _ => None) (fun _ _ => None).

(** The output directory exists already. *)
Definition env_outdir_exists : Env :=
  env_where (is_file Demo.env) (fun _ => Some "FileExistsError")
            (fun _ _ => None).

(** Training fails inside the engine. *)
Definition env_training_fails : Env :=
  env_where (is_file Demo.env) (fun _ => None)
            (fun _ _ => Some "MemoryError").

(** A world whose scalers change the data: what [fit_transform] answers
    is the matrix with every value halved. *)
Definition env_scaling : Env :=
  {| Path := Path Demo.env;
     joinpath := joinpath Demo.env;
     path_name := path_name Demo.env;
     file_path := file_path Demo.env;
     is_file := is_file Demo.env;
     read_parquet := read_parquet Demo.env;
     read_csv := read_csv Demo.env;
     astype_float32 := fun f => f;
     fit_transform := fun _ x =>
       inr (List.map (List.map (fun v => (v / 2)%float)) (rows x));
     now := now Demo.env;
     makedirs := fun _ => None;
     Logger := fun _ => None;
     dump_dict := fun _ _ => None;
     LearningCurve := fun _ => None;
     trn_learning_curve := fun _ _ => None |}.

(** The command line of [Demo.args] with the target and the scaler left
    open. *)
Definition args_with (model target : string) (sc : option string) : Args :=
  {| dirpath := Some "/data/ccle_cv_simple";
     target_name := target;
     cell_features := ["rna"];
     drug_features := ["dsc"];
     other_features := [];
     cv_method := "simple";
     cv_folds := AsInt 5;
     model_name := model;
     epochs := 200;
     batch_size := 32;
     dr_rate := 0.2%float;
     scaler := sc;
     opt := "sgd";
     clr_mode := Some "trng1";
     clr_base_lr := 1e-4%float;
     clr_max_lr := 1e-3%float;
     clr_gamma := 0.999994%float;
     n_shards := 5;
     n_jobs := 4 |}.

End Scenarios.
(* ===================================================================== *)
(** * Properties *)
(* ===================================================================== *)

(** ** The trace monad *)

Section MonadFacts.
Context {A B : Type}.
Implicit Types (m : M A) (k : A -> M B).

Lemma trace_bind m k :
  trace (bind m k) =
  match outcome m with
  | inl _ => trace m
  | inr a => (trace m ++ trace (k a))%list
  end.
Proof. destruct m as [t [e|a]]; simpl; [reflexivity|]. now destruct (k a). Qed.

Lemma outcome_bind m k :
  outcome (bind m k) =
  match outcome m with
  | inl e => inl e
  | inr a => outcome (k a)
  end.
Proof. destruct m as [t [e|a]]; simpl; [reflexivity|]. now destruct (k a). Qed.

Lemma in_trace_bind m k ev :
  In ev (trace (bind m k)) ->
  In ev (trace m) \/ exists a, outcome m = inr a /\ In ev (trace (k a)).
Proof.
  rewrite trace_bind. destruct (outcome m) as [e|a] eqn:E; [now left|].
  intros [H|H]%in_app_or; [now left|right; eauto].
Qed.

Lemma bind_raised m k e :
  outcome m = inl e -> bind m k = (trace m, inl e).
Proof. destruct m as [t [e'|a]]; simpl; congruence. Qed.

Lemma bind_returned m k a :
  outcome m = inr a ->
  bind m k = ((trace m ++ trace (k a))%list, outcome (k a)).
Proof.
  destruct m as [t [e'|a']]; simpl; [congruence|].
  intros [= ->]. now destruct (k a).
Qed.
End MonadFacts.

Lemma in_trace_call {A} (ev ev' : Event) (ans : string + A) :
  In ev (trace (call ev' ans)) -> ev = ev'.
Proof. simpl. intros [H|[]]. now symmetry. Qed.

Lemma in_trace_call_ (ev ev' : Event) (f : option string) :
  In ev (trace (call_ ev' f)) -> ev = ev'.
Proof. apply in_trace_call. Qed.

Lemma in_trace_for_each {A} (l : list A) (body : A -> M unit) ev :
  In ev (trace (for_each l body)) -> exists x, In x l /\ In ev (trace (body x)).
Proof.
  induction l as [|x l IH]; simpl; [intros []|].
  intros [H|(a & _ & H)]%in_trace_bind.
  - exists x. auto.
  - destruct (IH H) as (y & Hy & Hin). exists y. auto.
Qed.

(** ** Events of the individual steps *)

Lemma trace_ml_model_configs args xdata logger :
  trace (ml_model_configs args xdata logger) = [].
Proof. unfold ml_model_configs. now destruct (select_branch _). Qed.

Lemma trace_derive_mltype name : trace (derive_mltype name) = [].
Proof. unfold derive_mltype. now repeat destruct (contains _ _). Qed.

Lemma trace_Path_of env x : trace (Path_of env x) = [].
Proof. now destruct x. Qed.

Lemma in_trace_scale env args xdata ev :
  In ev (trace (scale env args xdata)) ->
  exists sc x, xdata = Some x /\ select_scaler (scaler args) = SvObj sc /\
               ev = EvFitTransform sc x.
Proof.
  unfold scale, pd_DataFrame. intros H.
  destruct xdata as [x|]; [|destruct H].
  destruct (select_scaler (scaler args)) as [|s|sc] eqn:E; try destruct H.
  apply in_trace_bind in H. destruct H as [H|(a & _ & H)].
  - apply in_trace_call in H. eauto.
  - destruct (forallb _ a); destruct H.
Qed.

Lemma in_trace_create_outdir env outdir args src ev :
  In ev (trace (create_outdir env outdir args src)) ->
  exists p, ev = EvMakedirs p.
Proof.
  unfold create_outdir. cbv zeta. intros H.
  apply in_trace_bind in H. destruct H as [H|(a & _ & H)]; [|destruct H].
  apply in_trace_call_ in H. eauto.
Qed.

Lemma in_trace_read_data_file env fpath fmt ev :
  In ev (trace (read_data_file env fpath fmt)) -> is_load_event ev = true.
Proof.
  unfold read_data_file. cbv zeta. intros H.
  apply in_trace_bind in H. destruct H as [H|(a & _ & H)].
  - apply in_trace_call in H. now subst.
  - destruct a; [|destruct H].
    repeat destruct (String.eqb fmt _); try destruct H.
    all: apply in_trace_bind in H; destruct H as [H|(b & _ & H)];
      [apply in_trace_call in H; now subst | destruct H].
Qed.

Lemma trace_getitem_column df name : trace (getitem_column df name) = [].
Proof. unfold getitem_column. now destruct (column_positions _ _ _). Qed.

Lemma outcome_for_each_singleton {A} (x : A) (body : A -> M unit) :
  outcome (for_each [x] body) =
  match outcome (body x) with
  | inl e => inl e
  | inr _ => inr tt
  end.
Proof. simpl. rewrite outcome_bind. reflexivity. Qed.

Lemma trace_for_each_singleton {A} (x : A) (body : A -> M unit) :
  trace (for_each [x] body) = trace (body x).
Proof.
  simpl. rewrite trace_bind. destruct (outcome (body x)); [reflexivity|].
  apply app_nil_r.
Qed.

(** Walks an occurrence [H : In ev (trace m)] down the structure of [m];
    [leaf] deals with the calls of the script's own functions. *)
Ltac in_trace_gen leaf H :=
  cbv beta iota zeta in H;
  lazymatch type of H with
  | In _ (trace (bind _ _)) =>
      let a := fresh "a" in
      let Ha := fresh "Ha" in
      apply in_trace_bind in H;
      destruct H as [H | (a & Ha & H)]; in_trace_gen leaf H
  | In _ (trace (call_ _ _)) =>
      apply in_trace_call_ in H; try discriminate H
  | In _ (trace (call _ _)) =>
      apply in_trace_call in H; try discriminate H
  | In _ (trace (log_info _)) =>
      apply in_trace_call_ in H; try discriminate H
  | In _ (trace (for_each _ _)) =>
      let x := fresh "x" in
      let Hx := fresh "Hx" in
      apply in_trace_for_each in H;
      destruct H as (x & Hx & H); in_trace_gen leaf H
  | In _ (trace (ret _)) => destruct H
  | In _ (trace (raise _)) => destruct H
  | In _ (trace (match ?x with _ => _ end)) =>
      let E := fresh "E" in destruct x eqn:E; in_trace_gen leaf H
  | _ => try leaf H
  end.

Ltac leaf_load H :=
  lazymatch type of H with
  | In _ (trace (read_data_file _ _ _)) =>
      apply in_trace_read_data_file in H
  | In _ (trace (getitem_column _ _)) =>
      rewrite trace_getitem_column in H; destruct H
  end.

Lemma in_trace_load_data env args dirpath ev :
  In ev (trace (load_data env args dirpath)) -> is_load_event ev = true.
Proof.
  unfold load_data. intros H. in_trace_gen leaf_load H; subst; auto.
Qed.

Lemma M_eta {A} (m : M A) : m = (trace m, outcome m).
Proof. now destruct m. Qed.

Ltac leaf_run H :=
  lazymatch type of H with
  | In _ (trace (scale _ _ _)) =>
      apply in_trace_scale in H;
      destruct H as (? & ? & ? & ? & H); try discriminate H
  | In _ (trace (create_outdir _ _ _ _)) =>
      apply in_trace_create_outdir in H;
      destruct H as (? & H); try discriminate H
  | In _ (trace (ml_model_configs _ _ _)) =>
      rewrite trace_ml_model_configs in H; destruct H
  | In _ (trace (derive_mltype _)) =>
      rewrite trace_derive_mltype in H; destruct H
  | In _ (trace (Path_of _ _)) =>
      rewrite trace_Path_of in H; destruct H
  | In _ (trace (load_data _ _ _)) =>
      apply in_trace_load_data in H
  end.

Ltac in_trace H := in_trace_gen leaf_run H.

(** ** Where the engine events come from *)

Lemma in_process_source_trn env args mltype clr src data lc t :
  In (EvTrnLearningCurve lc t)
     (trace (process_source env args mltype clr src data)) ->
  trn_mltype t = mltype /\ trn_clr_keras_kwargs t = clr /\
  trn_random_state t = SEED /\ trn_model_name t = model_name args /\
  trn_n_jobs t = n_jobs args /\
  exists xdata logger,
    ml_model_configs args xdata logger =
    ret (Some (trn_framework t, trn_init_kwargs t, trn_fit_kwargs t)).
Proof.
  destruct data as [[[ydata xdata] tr_id] vl_id].
  unfold process_source. intros H. in_trace H.
  injection H as -> ->.
  destruct a5 as [[[framework init_kwargs] fit_kwargs]|]; [|discriminate].
  injection Ha10 as <-. simpl. repeat split.
  eexists _, _. rewrite (M_eta (ml_model_configs _ _ _)).
  rewrite trace_ml_model_configs, Ha5. reflexivity.
Qed.

Lemma in_process_source_lc env args mltype clr src data lc :
  In (EvLearningCurve lc)
     (trace (process_source env args mltype clr src data)) ->
  lc_shard_step_scale lc = "log10" /\ lc_n_shards lc = n_shards args /\
  lc_args lc = args /\ lc_cv lc = PyNone.
Proof.
  destruct data as [[[ydata xdata] tr_id] vl_id].
  unfold process_source. intros H. in_trace H.
  injection H as ->. now simpl.
Qed.

Lemma in_process_source_trn_lc env args mltype clr src data lc t :
  In (EvTrnLearningCurve lc t)
     (trace (process_source env args mltype clr src data)) ->
  In (EvLearningCurve lc)
     (trace (process_source env args mltype clr src data)).
Proof.
  destruct data as [[[ydata xdata] tr_id] vl_id].
  unfold process_source. intros H. in_trace H.
  injection H as -> ->.
  do 10 (rewrite trace_bind;
         match goal with
         | E : outcome ?m = inr _ |- context [outcome ?m] => rewrite E
         end; apply in_or_app; right).
  rewrite trace_bind, Ha9. apply in_or_app. left. now left.
Qed.

(** Engine events of [run] are events of the loop body, run on a data
    source after [mltype] was derived. *)
Lemma in_run_process_source env args ev :
  is_engine ev = true ->
  In ev (trace (run env args)) ->
  exists p mltype src data,
    dirpath args = Some p /\
    derive_mltype (model_name args) = ret mltype /\
    In ev (trace (process_source env args mltype (clr_keras_kwargs_of args)
                                 src data)).
Proof.
  unfold run. intros Hev H.
  destruct (dirpath args) as [p|] eqn:Hp; [|destruct H].
  in_trace H.
  - destruct ev; discriminate.
  - exists p, a0, s, s0. repeat split; [|exact H].
    rewrite (M_eta (derive_mltype _)), trace_derive_mltype, Ha0. reflexivity.
  - subst ev. discriminate.
Qed.

(** ** Which exceptions can surface *)

Section OutcomeFacts.
Context {A B : Type}.
Implicit Types (m : M A) (k : A -> M B).

Lemma outcome_bind_inl m k e :
  outcome (bind m k) = inl e ->
  outcome m = inl e \/ exists a, outcome m = inr a /\ outcome (k a) = inl e.
Proof.
  rewrite outcome_bind. destruct (outcome m) as [e'|a].
  - intros [= ->]. now left.
  - right; eauto.
Qed.
End OutcomeFacts.

Lemma outcome_call_inl {A} ev (ans : string + A) e :
  outcome (call ev ans) = inl e -> exists what, e = LibraryError what.
Proof. destruct ans; simpl; intros [= <-]; eauto. Qed.

Lemma outcome_call__inl ev f e :
  outcome (call_ ev f) = inl e -> exists what, e = LibraryError what.
Proof. apply outcome_call_inl. Qed.

Lemma outcome_for_each_inl {A} (l : list A) (body : A -> M unit) e :
  outcome (for_each l body) = inl e ->
  exists x, In x l /\ outcome (body x) = inl e.
Proof.
  induction l as [|x l IH]; simpl; [discriminate|].
  intros [H|(a & _ & H)]%outcome_bind_inl.
  - exists x. auto.
  - destruct (IH H) as (y & Hy & Hr). exists y. auto.
Qed.

(** Walks [H : outcome m = inl e] down to the statement that raised. *)
Ltac raised H :=
  cbv beta iota zeta in H;
  lazymatch type of H with
  | outcome (bind _ _) = inl _ =>
      let a := fresh "a" in
      let Ha := fresh "Ha" in
      apply outcome_bind_inl in H;
      destruct H as [H | (a & Ha & H)]; raised H
  | outcome (call_ _ _) = inl _ =>
      apply outcome_call__inl in H; destruct H as (? & H); try discriminate H
  | outcome (call _ _) = inl _ =>
      apply outcome_call_inl in H; destruct H as (? & H); try discriminate H
  | outcome (log_info _) = inl _ =>
      apply outcome_call__inl in H; destruct H as (? & H); try discriminate H
  | outcome (for_each _ _) = inl _ =>
      let x := fresh "x" in
      let Hx := fresh "Hx" in
      apply outcome_for_each_inl in H;
      destruct H as (x & Hx & H); raised H
  | outcome (ret _) = inl _ => discriminate H
  | outcome (raise _) = inl _ => simpl in H; try discriminate H
  | outcome (match ?x with _ => _ end) = inl _ =>
      let E := fresh "E" in destruct x eqn:E; raised H
  | _ => idtac
  end.

(** The only undefined name the script can ever look up is [attn]. *)
Lemma NameError_is_attn env args name :
  outcome (run env args) = inl (NameError name) -> name = "attn".
Proof.
  unfold run, Path_of, derive_mltype, load_data, read_data_file,
    getitem_column, process_source, scale, pd_DataFrame, create_outdir,
    ml_model_configs.
  intros H. raised H. now injection H as <-.
Qed.

(** [load_data] on a directory yields exactly one data source. *)
Lemma load_data_returned env args d dfs :
  outcome (load_data env args (Some d)) = inr dfs ->
  exists src ydata xdata tr_id vl_id,
    dfs = [(src, (ydata, xdata, tr_id, vl_id))] /\
    outcome (read_data_file env (joinpath env d "xdata.parquet") "parquet")
    = inr xdata.
Proof.
  unfold load_data. cbv zeta. rewrite !outcome_bind.
  destruct (outcome (read_data_file env (joinpath env d "xdata.parquet") _))
    as [|xdata]; [discriminate|].
  rewrite !outcome_bind.
  destruct (outcome (read_data_file env _ _)) as [|meta]; [discriminate|].
  rewrite !outcome_bind.
  destruct (outcome (match meta with Some _ => _ | None => _ end))
    as [|ydata]; [discriminate|].
  rewrite !outcome_bind.
  destruct (outcome (call _ _)) as [|tr_id]; [discriminate|].
  rewrite !outcome_bind.
  destruct (outcome (call _ _)) as [|vl_id]; [discriminate|].
  simpl. intros [= <-]. eauto 10.
Qed.

(** ** Reading engine calls off a trace *)

Lemma trn_calls_In tr lc t :
  In (lc, t) (trn_calls tr) -> In (EvTrnLearningCurve lc t) tr.
Proof.
  unfold trn_calls. induction tr as [|ev tr IH]; simpl; [easy|].
  destruct ev; simpl; auto. intros [[= -> ->]|H]; auto.
Qed.

Lemma lc_calls_In tr lc :
  In lc (lc_calls tr) -> In (EvLearningCurve lc) tr.
Proof.
  unfold lc_calls. induction tr as [|ev tr IH]; simpl; [easy|].
  destruct ev; simpl; auto. intros [->|H]; auto.
Qed.

Lemma has_trn_call tr :
  (length (trn_calls tr) =? 0)%nat = false ->
  exists lc t, In (EvTrnLearningCurve lc t) tr.
Proof.
  destruct (trn_calls tr) as [|[lc t] l] eqn:E; [discriminate|].
  intros _. exists lc, t. apply trn_calls_In. rewrite E. now left.
Qed.

Lemma has_lc_call tr :
  (length (lc_calls tr) =? 0)%nat = false ->
  exists lc, In (EvLearningCurve lc) tr.
Proof.
  destruct (lc_calls tr) as [|lc l] eqn:E; [discriminate|].
  intros _. exists lc. apply lc_calls_In. rewrite E. now left.
Qed.

(* ===================================================================== *)
(** ** Model selection *)
(* ===================================================================== *)

Lemma select_branch_other name :
  name <> "lgb_reg" -> name <> "nn_reg" -> select_branch name = BrNnReg012.
Proof.
  intros H1 H2. unfold select_branch, py_eq_str, truthy at 1 2.
  apply String.eqb_neq in H1, H2. rewrite H1, H2.
  unfold cond_nn_reg012, py_eq_str, py_or.
  now destruct (String.eqb name "nn_reg0").
Qed.

(** C1.  The test [model_name == 'nn_reg0' or 'nn_reg1' or 'nn_reg2'] is
    true for every [model_name]; so every name other than ['lgb_reg'] and
    ['nn_reg'] takes the third arm, which sets [framework] to ['keras']
    (also as seen by the engine), and the fourth arm
    ([model_name == 'nn_reg3' or 'nn_reg4']) is never taken. *)
Theorem nn_reg012_test_always_true (name : string) :
  truthy (cond_nn_reg012 name) = true /\
  (name <> "lgb_reg" -> name <> "nn_reg" ->
   select_branch name = BrNnReg012 /\
   (forall args xdata logger,
      model_name args = name ->
      exists init_kwargs fit_kwargs,
        init_kwargs !! "input_dim" = Some (PyInt (Z.of_nat (length (columns xdata)))) /\
        ml_model_configs args xdata logger =
        ret (Some ("keras", init_kwargs, fit_kwargs))) /\
   (forall env args lc t,
      model_name args = name ->
      In (EvTrnLearningCurve lc t) (trace (run env args)) ->
      trn_framework t = "keras")) /\
  select_branch name <> BrNnReg34.
Proof.
  assert (Htrue : truthy (cond_nn_reg012 name) = true).
  { unfold cond_nn_reg012, py_eq_str, py_or.
    now destruct (String.eqb name "nn_reg0"). }
  split; [exact Htrue|]. split.
  - intros H1 H2. pose proof (select_branch_other name H1 H2) as Hbr.
    split; [exact Hbr|]. split.
    + intros args xdata logger <-. unfold ml_model_configs. rewrite Hbr.
      eexists _, _. split; [|reflexivity]. reflexivity.
    + intros env args lc t <- Hin.
      apply in_run_process_source in Hin as (p & mltype & src & data & _ & _ & Hin);
        [|reflexivity].
      apply in_process_source_trn in Hin
        as (_ & _ & _ & _ & _ & xdata & logger & Hcfg).
      unfold ml_model_configs in Hcfg. rewrite Hbr in Hcfg.
      now injection Hcfg as <- _ _.
  - unfold select_branch.
    destruct (truthy (py_eq_str name "lgb_reg")); [discriminate|].
    destruct (truthy (py_eq_str name "nn_reg")); [discriminate|].
    rewrite Htrue. discriminate.
Qed.

(** ['nn_reg3'], which the fourth arm names, is configured by the third
    arm. *)
Lemma nn_reg012_test_always_true_witness :
  select_branch "nn_reg3" = BrNnReg012 /\
  exists lc t,
    In (EvTrnLearningCurve lc t) (trace (run Demo.env (Demo.args "nn_reg3"))) /\
    trn_framework t = "keras".
Proof.
  destruct (nn_reg012_test_always_true "nn_reg3") as (_ & H & _).
  destruct H as (Hbr & _ & Hrun); [discriminate | discriminate |].
  split; [exact Hbr|].
  destruct (has_trn_call (trace (run Demo.env (Demo.args "nn_reg3"))))
    as (lc & t & Hin); [vm_compute; reflexivity|].
  exists lc, t. split; [exact Hin|].
  exact (Hrun Demo.env (Demo.args "nn_reg3") lc t eq_refl Hin).
Defined.

(* ===================================================================== *)
(** ** Deriving [mltype] *)
(* ===================================================================== *)

Lemma derive_mltype_ret name mltype :
  derive_mltype name = ret mltype ->
  mltype = if contains "reg" name then "reg" else "cls".
Proof.
  unfold derive_mltype. destruct (contains "reg" name); [now intros [= <-]|].
  destruct (contains "cls" name); [now intros [= <-]|discriminate].
Qed.

(** C2, as stated, fails: with [--dirpath] left at its default [None] and a
    model name that holds neither ['reg'] nor ['cls'], [run] stops with the
    [TypeError] of [Path(None)], not with a [ValueError]. *)
Lemma mltype_error_preempted_by_TypeError :
  contains "reg" (model_name (Demo.args_no_dirpath "lgb")) = false /\
  contains "cls" (model_name (Demo.args_no_dirpath "lgb")) = false /\
  run Demo.env (Demo.args_no_dirpath "lgb") = ([], inl TypeError) /\
  forall msg,
    outcome (run Demo.env (Demo.args_no_dirpath "lgb")) <> inl (ValueError msg).
Proof. repeat split. discriminate. Qed.

(** C2 (amended).  [run] derives [mltype] before it touches anything: a run
    that performed any event had a model name holding ['reg'] or ['cls'];
    the engine is handed ['reg'] when the name holds ['reg'] and ['cls']
    otherwise; and when [dirpath] is not [None] and the name holds neither,
    [run] raises the [ValueError] with no event at all (no file read, no
    output directory, no engine call). *)
Theorem mltype_derived_eagerly env args :
  (trace (run env args) <> [] ->
   contains "reg" (model_name args) = true \/
   contains "cls" (model_name args) = true) /\
  (forall lc t,
     In (EvTrnLearningCurve lc t) (trace (run env args)) ->
     trn_mltype t = if contains "reg" (model_name args) then "reg" else "cls") /\
  (dirpath args <> None ->
   contains "reg" (model_name args) = false ->
   contains "cls" (model_name args) = false ->
   run env args =
   ([], inl (ValueError "model_name must contain 'reg' or 'cls'."))).
Proof.
  split; [|split].
  - unfold run, derive_mltype. destruct (dirpath args) as [d|]; [|easy].
    simpl. destruct (contains "reg" _); [auto|].
    destruct (contains "cls" _); [auto|]. easy.
  - intros lc t Hin.
    apply in_run_process_source in Hin
      as (p & mltype & src & data & _ & Hml & Hin); [|reflexivity].
    apply in_process_source_trn in Hin as (-> & _).
    now apply derive_mltype_ret.
  - intros Hd Hreg Hcls. unfold run, derive_mltype.
    destruct (dirpath args) as [d|]; [|easy].
    simpl. now rewrite Hreg, Hcls.
Qed.

Lemma mltype_derived_eagerly_witness :
  run Demo.env (Demo.args "lgb") =
  ([], inl (ValueError "model_name must contain 'reg' or 'cls'.")) /\
  exists lc t,
    In (EvTrnLearningCurve lc t) (trace (run Demo.env (Demo.args "lgb_reg"))) /\
    trn_mltype t = "reg".
Proof.
  split.
  - apply (mltype_derived_eagerly Demo.env (Demo.args "lgb"));
      [discriminate | reflexivity | reflexivity].
  - destruct (has_trn_call (trace (run Demo.env (Demo.args "lgb_reg"))))
      as (lc & t & Hin); [vm_compute; reflexivity|].
    exists lc, t. split; [exact Hin|].
    exact (proj1 (proj2 (mltype_derived_eagerly Demo.env (Demo.args "lgb_reg")))
                 lc t Hin).
Defined.

(* ===================================================================== *)
(** ** What the engine is handed *)
(* ===================================================================== *)

Lemma in_run_lc env args lc :
  In (EvLearningCurve lc) (trace (run env args)) ->
  lc_shard_step_scale lc = "log10" /\ lc_n_shards lc = n_shards args /\
  lc_args lc = args /\ lc_cv lc = PyNone.
Proof.
  intros Hin.
  apply in_run_process_source in Hin
    as (p & mltype & src & data & _ & _ & Hin); [|reflexivity].
  now apply in_process_source_lc in Hin.
Qed.

Lemma in_run_trn env args lc t :
  In (EvTrnLearningCurve lc t) (trace (run env args)) ->
  trn_clr_keras_kwargs t = clr_keras_kwargs_of args /\
  trn_random_state t = SEED /\
  exists xdata logger,
    ml_model_configs args xdata logger =
    ret (Some (trn_framework t, trn_init_kwargs t, trn_fit_kwargs t)).
Proof.
  intros Hin.
  apply in_run_process_source in Hin
    as (p & mltype & src & data & _ & _ & Hin); [|reflexivity].
  pose proof (in_process_source_trn _ _ _ _ _ _ _ _ Hin)
    as (_ & Hclr & Hseed & _ & _ & Hcfg).
  auto.
Qed.

(** C6, as stated, fails: no input makes [run] construct the engine with
    scale mode ['linear']. *)
Lemma scale_mode_never_linear :
  ~ exists env args lc,
      In (EvLearningCurve lc) (trace (run env args)) /\
      lc_shard_step_scale lc = "linear".
Proof.
  intros (env & args & lc & Hin & Hlin).
  apply in_run_lc in Hin as (Hlog & _). congruence.
Qed.

(** C6 (amended).  The scale mode is not an input of [run]: every
    construction of the engine passes [shard_step_scale='log10'], whatever
    the arguments; of the shard configuration only the tick count
    [n_shards] comes from the caller. *)
Theorem scale_mode_fixed_log10 env args lc :
  In (EvLearningCurve lc) (trace (run env args)) ->
  lc_shard_step_scale lc = "log10" /\ lc_n_shards lc = n_shards args.
Proof. intros Hin. now apply in_run_lc in Hin as (? & ? & _). Qed.

Lemma scale_mode_fixed_log10_witness :
  exists lc,
    In (EvLearningCurve lc) (trace (run Demo.env (Demo.args "lgb_reg"))) /\
    lc_shard_step_scale lc = "log10" /\ lc_n_shards lc = 5.
Proof.
  destruct (has_lc_call (trace (run Demo.env (Demo.args "lgb_reg"))))
    as (lc & Hin); [vm_compute; reflexivity|].
  exists lc. split; [exact Hin|].
  exact (scale_mode_fixed_log10 Demo.env (Demo.args "lgb_reg") lc Hin).
Defined.

Lemma config_random_state args xdata logger framework init_kwargs fit_kwargs :
  ml_model_configs args xdata logger =
  ret (Some (framework, init_kwargs, fit_kwargs)) ->
  init_kwargs !! "random_state" =
  if String.eqb (model_name args) "lgb_reg" then Some (PyInt SEED) else None.
Proof.
  unfold ml_model_configs, select_branch, py_eq_str, truthy at 1 2.
  destruct (String.eqb (model_name args) "lgb_reg").
  { now intros [= <- <- <-]. }
  destruct (String.eqb (model_name args) "nn_reg"); [discriminate|].
  destruct (truthy (cond_nn_reg012 _)); [now intros [= <- <- <-]|].
  destruct (truthy (cond_nn_reg34 _)); [now intros [= <- <- <-]|discriminate].
Qed.

(** C7, as stated, fails: the seed does not vary with the inputs of [run];
    any two engine invocations, of any two runs, get the same
    [random_state]. *)
Lemma seed_never_varies :
  ~ exists env1 args1 lc1 t1 env2 args2 lc2 t2,
      In (EvTrnLearningCurve lc1 t1) (trace (run env1 args1)) /\
      In (EvTrnLearningCurve lc2 t2) (trace (run env2 args2)) /\
      trn_random_state t1 <> trn_random_state t2.
Proof.
  intros (env1 & args1 & lc1 & t1 & env2 & args2 & lc2 & t2 & H1 & H2 & Hne).
  apply in_run_trn in H1 as (_ & H1 & _).
  apply in_run_trn in H2 as (_ & H2 & _). congruence.
Qed.

(** C7 (amended).  The seed is the module constant [SEED = 42], not an
    input of [run]: every learning-curve generation call gets
    [random_state=42], and [init_kwargs] holds [random_state] (equal to 42)
    exactly for the model ['lgb_reg']. *)
Theorem seed_fixed_42 env args lc t :
  In (EvTrnLearningCurve lc t) (trace (run env args)) ->
  trn_random_state t = 42 /\
  trn_init_kwargs t !! "random_state" =
  if String.eqb (model_name args) "lgb_reg" then Some (PyInt 42) else None.
Proof.
  intros Hin. apply in_run_trn in Hin as (_ & Hseed & x & l & Hcfg).
  split; [exact Hseed|]. now apply config_random_state in Hcfg.
Qed.

Lemma seed_fixed_42_witness :
  exists lc t,
    In (EvTrnLearningCurve lc t) (trace (run Demo.env (Demo.args "lgb_reg"))) /\
    trn_random_state t = 42 /\
    trn_init_kwargs t !! "random_state" = Some (PyInt 42).
Proof.
  destruct (has_trn_call (trace (run Demo.env (Demo.args "lgb_reg"))))
    as (lc & t & Hin); [vm_compute; reflexivity|].
  exists lc, t. split; [exact Hin|].
  exact (seed_fixed_42 Demo.env (Demo.args "lgb_reg") lc t Hin).
Defined.

(** C8.  The cyclical-learning-rate configuration handed to the engine is
    the mapping with exactly the four keys [mode], [base_lr], [max_lr] and
    [gamma], bound to the arguments [clr_mode] ([None] when absent),
    [clr_base_lr], [clr_max_lr] and [clr_gamma]. *)
Theorem clr_keras_kwargs_quadruple env args lc t :
  In (EvTrnLearningCurve lc t) (trace (run env args)) ->
  trn_clr_keras_kwargs t =
    {[ "mode" := py_opt_str (clr_mode args);
       "base_lr" := PyFloat (clr_base_lr args);
       "max_lr" := PyFloat (clr_max_lr args);
       "gamma" := PyFloat (clr_gamma args) ]} /\
  dom (trn_clr_keras_kwargs t) =
    ({[ "mode"; "base_lr"; "max_lr"; "gamma" ]} : gset string) /\
  size (trn_clr_keras_kwargs t) = 4%nat /\
  trn_clr_keras_kwargs t !! "mode" = Some (py_opt_str (clr_mode args)) /\
  trn_clr_keras_kwargs t !! "base_lr" = Some (PyFloat (clr_base_lr args)) /\
  trn_clr_keras_kwargs t !! "max_lr" = Some (PyFloat (clr_max_lr args)) /\
  trn_clr_keras_kwargs t !! "gamma" = Some (PyFloat (clr_gamma args)).
Proof.
  intros Hin. apply in_run_trn in Hin as (-> & _).
  unfold clr_keras_kwargs_of. split; [reflexivity|].
  split; [|split; [reflexivity|repeat split]].
  rewrite !dom_insert_L, dom_singleton_L. set_solver.
Qed.

Lemma clr_keras_kwargs_quadruple_witness :
  exists lc t,
    In (EvTrnLearningCurve lc t) (trace (run Demo.env (Demo.args "nn_reg0"))) /\
    trn_clr_keras_kwargs t !! "mode" = Some PyNone /\
    size (trn_clr_keras_kwargs t) = 4%nat.
Proof.
  destruct (has_trn_call (trace (run Demo.env (Demo.args "nn_reg0"))))
    as (lc & t & Hin); [vm_compute; reflexivity|].
  exists lc, t. split; [exact Hin|].
  pose proof (clr_keras_kwargs_quadruple Demo.env (Demo.args "nn_reg0") lc t Hin)
    as (_ & _ & Hsize & Hmode & _).
  split; [exact Hmode | exact Hsize].
Defined.

(* ===================================================================== *)
(** ** The ['nn_reg'] arm *)
(* ===================================================================== *)

Lemma ml_model_configs_nn_reg args xdata logger :
  model_name args = "nn_reg" ->
  ml_model_configs args xdata logger = raise (NameError "attn").
Proof. intros Hm. unfold ml_model_configs. now rewrite Hm. Qed.

Ltac step_outcome :=
  rewrite outcome_bind;
  match goal with
  | E : outcome ?m = inr _ |- context [outcome ?m] => rewrite E
  end.

Lemma process_source_nn_reg env args mltype clr src data p :
  model_name args = "nn_reg" ->
  In (EvDumpDict args p) (trace (process_source env args mltype clr src data)) ->
  dump_dict env args p = None ->
  outcome (process_source env args mltype clr src data)
  = inl (NameError "attn").
Proof.
  intros Hm Hin Hdump. destruct data as [[[ydata xdata] tr_id] vl_id].
  unfold process_source in *. in_trace Hin.
  injection Hin as ->. do 5 step_outcome.
  rewrite outcome_bind. unfold call_ at 1, call at 1. rewrite Hdump.
  cbv beta iota zeta. unfold outcome at 1. cbv beta iota zeta.
  unfold snd at 1.
  rewrite outcome_bind, ml_model_configs_nn_reg by exact Hm. reflexivity.
Qed.

(** C9.  With [model_name == 'nn_reg'] the model-configuration step raises
    [NameError] for the undefined name [attn]; no run constructs or invokes
    the engine; and a run that got as far as dumping the arguments (the
    statement just before the model configuration) ends with that
    [NameError]. *)
Theorem nn_reg_raises_NameError env args :
  model_name args = "nn_reg" ->
  (forall xdata logger,
     ml_model_configs args xdata logger = raise (NameError "attn")) /\
  (forall ev, In ev (trace (run env args)) -> is_engine ev = false) /\
  (forall p,
     In (EvDumpDict args p) (trace (run env args)) ->
     dump_dict env args p = None ->
     outcome (run env args) = inl (NameError "attn")).
Proof.
  intros Hm. split; [|split].
  - intros. now apply ml_model_configs_nn_reg.
  - intros ev Hin. destruct (is_engine ev) eqn:Hev; [exfalso|reflexivity].
    apply in_run_process_source in Hin
      as (p & mltype & src & data & _ & _ & Hin); [|exact Hev].
    destruct data as [[[ydata xdata] tr_id] vl_id].
    unfold process_source in Hin. in_trace Hin; subst ev; try discriminate.
    all: rewrite ml_model_configs_nn_reg in * by exact Hm; discriminate.
  - intros p Hin Hdump. unfold run in *.
    destruct (dirpath args) as [d|]; [|destruct Hin].
    in_trace Hin; try discriminate.
    do 3 step_outcome.
    apply load_data_returned in Ha1 as (src & y & xd & tr & vl & -> & _).
    destruct Hx as [[= <- <-]|[]].
    rewrite outcome_bind, outcome_for_each_singleton.
    now rewrite (process_source_nn_reg _ _ _ _ _ _ _ Hm Hin Hdump).
Qed.

Lemma nn_reg_raises_NameError_witness :
  model_name (Demo.args "nn_reg") = "nn_reg" /\
  outcome (run Demo.env (Demo.args "nn_reg")) = inl (NameError "attn").
Proof.
  split; [reflexivity|].
  destruct (nn_reg_raises_NameError Demo.env (Demo.args "nn_reg") eq_refl)
    as (_ & _ & H).
  apply (H "/repo/src/LearningCurves/../../out//LearningCurves/ccle.nn_reg.sgd.cvf5.rna.dsc.AUC_2019-7-4_h9-m30/args.txt");
    [|reflexivity].
  vm_compute. do 11 right. left. reflexivity.
Defined.

(* ===================================================================== *)
(** ** [dirpath] left at [None] *)
(* ===================================================================== *)

(** C10.  With [args['dirpath']] equal to [None], [run] raises the
    [TypeError] of [Path(None)] with no event performed (no file is
    looked up or read).  Hence the branch test never sees [None]: no run
    ever looks up one of the undefined names [dname], [src_names],
    [cv_method] or [break_src_data] of the [elif] arm. *)
Theorem dirpath_None_TypeError env args :
  (dirpath args = None -> run env args = ([], inl TypeError)) /\
  (forall name,
     In name ["dname"; "src_names"; "cv_method"; "break_src_data"] ->
     outcome (run env args) <> inl (NameError name)).
Proof.
  split.
  - intros Hd. unfold run. now rewrite Hd.
  - intros name Hname Hraised. apply NameError_is_attn in Hraised.
    subst name. simpl in Hname. intuition discriminate.
Qed.

Lemma dirpath_None_TypeError_witness :
  dirpath (Demo.args_no_dirpath "lgb_reg") = None /\
  run Demo.env (Demo.args_no_dirpath "lgb_reg") = ([], inl TypeError).
Proof.
  split; [reflexivity|].
  apply (dirpath_None_TypeError Demo.env (Demo.args_no_dirpath "lgb_reg")).
  reflexivity.
Defined.

(* ===================================================================== *)
(** ** Feature scaling happens once, before the engine *)
(* ===================================================================== *)

Lemma select_scaler_obj s sc :
  select_scaler s = SvObj sc ->
  exists name,
    s = Some name /\
    (name = "stnd" /\ sc = StandardScaler \/
     name = "minmax" /\ sc = MinMaxScaler \/
     name = "rbst" /\ sc = RobustScaler).
Proof.
  destruct s as [name|]; [|discriminate]. unfold select_scaler.
  destruct (String.eqb_spec name "stnd") as [->|_].
  { intros [= <-]. eauto 6. }
  destruct (String.eqb_spec name "minmax") as [->|_].
  { intros [= <-]. eauto 6. }
  destruct (String.eqb_spec name "rbst") as [->|_]; [|discriminate].
  intros [= <-]. eauto 7.
Qed.

Lemma scale_returned env args xdata scaled :
  outcome (scale env args xdata) = inr scaled ->
  exists sc x arr,
    xdata = Some x /\ select_scaler (scaler args) = SvObj sc /\
    trace (scale env args xdata) = [EvFitTransform sc x] /\
    fit_transform env sc x = inr arr /\
    Forall (fun r => length r = length (columns x)) arr /\
    scaled = {| columns := columns x;
                rows := List.map (List.map (astype_float32 env)) arr |}.
Proof.
  unfold scale, pd_DataFrame.
  destruct xdata as [x|]; [|discriminate].
  destruct (select_scaler (scaler args)) as [|s|sc]; try discriminate.
  rewrite outcome_bind, trace_bind. unfold call, outcome at 1 3, trace at 1 2.
  cbn [fst snd].
  destruct (fit_transform env sc x) as [what|arr] eqn:Hfit; [discriminate|].
  destruct (forallb _ arr) eqn:Hshape; [|discriminate].
  intros [= <-]. exists sc, x, arr.
  split; [reflexivity|]. split; [reflexivity|]. split; [reflexivity|].
  split; [exact Hfit|]. split; [|reflexivity].
  apply Forall_forall. intros r Hr%list_elem_of_In.
  rewrite forallb_forall in Hshape. now apply Nat.eqb_eq, Hshape.
Qed.

Lemma read_data_file_parquet env p x :
  outcome (read_data_file env p "parquet") = inr (Some x) ->
  read_parquet env (Path env p) = inr x.
Proof.
  unfold read_data_file. cbv zeta. rewrite outcome_bind.
  unfold call at 1, outcome at 1. cbn [snd].
  destruct (is_file env (Path env p)); [|discriminate].
  change (String.eqb "parquet" "csv") with false.
  change (String.eqb "parquet" "parquet") with true. cbv iota.
  rewrite outcome_bind. unfold call, outcome at 1. cbn [snd].
  destruct (read_parquet env (Path env p)); [discriminate|].
  now intros [= ->].
Qed.

Lemma process_source_scaled_once env args mltype clr src y xd tr vl lc :
  In (EvLearningCurve lc)
     (trace (process_source env args mltype clr src (y, xd, tr, vl))) ->
  exists sc x arr rest,
    xd = Some x /\ select_scaler (scaler args) = SvObj sc /\
    trace (process_source env args mltype clr src (y, xd, tr, vl))
    = EvFitTransform sc x :: rest /\
    Forall (fun ev => is_fit_transform ev = false) rest /\
    In (EvLearningCurve lc) rest /\
    fit_transform env sc x = inr arr /\
    Forall (fun r => length r = length (columns x)) arr /\
    lc_X lc = {| columns := columns x;
                 rows := List.map (List.map (astype_float32 env)) arr |}.
Proof.
  unfold process_source. rewrite trace_bind.
  destruct (outcome (scale env args xd)) as [e|scaled] eqn:Hs.
  { intros (? & ? & _ & _ & [=])%in_trace_scale. }
  destruct (scale_returned _ _ _ _ Hs)
    as (sc & x & arr & -> & Hsel & -> & Hfit & Hshape & Hscaled).
  cbn [app]. intros [[=]|Hin]. exists sc, x, arr. eexists.
  repeat split; eauto.
  - apply Forall_forall. intros ev Hev%list_elem_of_In.
    in_trace Hev; now subst ev.
  - rewrite <- Hscaled. in_trace Hin. now injection Hin as ->.
Qed.

Lemma filter_none (l : Trace) :
  Forall (fun ev => is_fit_transform ev = false) l ->
  List.filter is_fit_transform l = [].
Proof.
  induction 1 as [|ev l Hev _ IH]; simpl; [reflexivity|]. now rewrite Hev.
Qed.

Lemma process_source_fit_transform_count env args mltype clr src data :
  (length (List.filter is_fit_transform
             (trace (process_source env args mltype clr src data))) <= 1)%nat.
Proof.
  destruct data as [[[y xd] tr] vl]. unfold process_source.
  rewrite trace_bind.
  assert (Hscale : (length (List.filter is_fit_transform
                              (trace (scale env args xd))) <= 1)%nat).
  { unfold scale, pd_DataFrame. destruct xd as [x|]; [|simpl; lia].
    destruct (select_scaler (scaler args)); try (simpl; lia).
    rewrite trace_bind. unfold call, outcome at 1, trace at 1 2. cbn [fst snd].
    destruct (fit_transform env sc x) as [what|arr]; [simpl; lia|].
    destruct (forallb _ arr); simpl; lia. }
  destruct (outcome (scale env args xd)) as [e|scaled]; [exact Hscale|].
  match goal with
  | |- context [(trace _ ++ trace ?rest)%list] =>
      rewrite List.filter_app, length_app, (filter_none (trace rest));
        [cbn [length]; lia|]
  end.
  apply Forall_forall. intros ev Hev%list_elem_of_In.
  in_trace Hev; now subst ev.
Qed.


(* ===================================================================== *)
(** ** The shard schedule *)
(* ===================================================================== *)

Module ShardSchedulerFacts.
Import ShardScheduler.
#[local] Open Scope Z_scope.

Example log_points_1000 :
  log_points ticks_per_decade 1000 5 = [10; 31; 100; 316; 1000].
Proof. reflexivity. Qed.

(** The example of the specification: five ticks requested, four sizes
    returned, since the lowest point is below the floor. *)
Example shard_sizes_1000 :
  shard_sizes 30 1000 5 "log10" = inr [31; 100; 316; 1000].
Proof. reflexivity. Qed.

Example shard_sizes_small :
  shard_sizes 1 3 5 "log10" = inr [3] /\
  shard_sizes 1 3 5 "linear" = inr [1; 2; 3].
Proof. split; reflexivity. Qed.

(** *** Cleaning *)

Lemma increasing_from_above prev l :
  Forall (fun x => prev < x) (increasing_from prev l).
Proof.
  revert prev. induction l as [|x l IH]; intros prev; simpl; [constructor|].
  destruct (Z.ltb_spec prev x) as [Hlt|Hge]; [|apply IH].
  constructor; [exact Hlt|].
  eapply Forall_impl; [apply IH|]. simpl. intros y Hy. lia.
Qed.

Lemma increasing_from_sorted prev l :
  StronglySorted Z.lt (increasing_from prev l).
Proof.
  revert prev. induction l as [|x l IH]; intros prev; simpl; [constructor|].
  destruct (prev <? x); [|apply IH].
  constructor; [apply IH | apply increasing_from_above].
Qed.

Lemma increasing_from_length prev l :
  (length (increasing_from prev l) <= length l)%nat.
Proof.
  revert prev. induction l as [|x l IH]; intros prev; simpl; [lia|].
  destruct (prev <? x); simpl; [specialize (IH x) | specialize (IH prev)]; lia.
Qed.

Lemma increasing_from_all_below prev l :
  Forall (fun x => x <= prev) l -> increasing_from prev l = [].
Proof.
  induction 1 as [|x l Hx _ IH]; simpl; [reflexivity|].
  destruct (Z.ltb_spec prev x); [lia | exact IH].
Qed.

Lemma increasing_from_last hi prev l :
  prev < hi ->
  Forall (fun x => x <= hi) l ->
  last l = Some hi ->
  last (increasing_from prev l) = Some hi.
Proof.
  revert prev. induction l as [|x l IH]; intros prev Hprev Hall Hlast;
    [discriminate|].
  apply Forall_cons in Hall as [Hx Hall]. simpl.
  destruct l as [|y l'].
  - injection Hlast as ->. simpl.
    destruct (Z.ltb_spec prev hi); [reflexivity | lia].
  - change (last (x :: y :: l')) with (last (y :: l')) in Hlast.
    destruct (Z.ltb_spec prev x) as [Hlt|Hge]; [|now apply IH].
    destruct (Z.eq_dec x hi) as [->|Hne].
    + rewrite increasing_from_all_below by exact Hall. reflexivity.
    + assert (Hxhi : x < hi) by lia.
      specialize (IH x Hxhi Hall Hlast).
      destruct (increasing_from x (y :: l')); [discriminate | exact IH].
Qed.

Lemma increasing_from_Forall (P : Z -> Prop) prev l :
  Forall P l -> Forall P (increasing_from prev l).
Proof.
  intros H. revert prev. induction H as [|x l Hx _ IH]; intros prev; simpl;
    [constructor|].
  destruct (prev <? x); [constructor; [exact Hx|]|]; apply IH.
Qed.

(** *** The floor *)

Lemma at_least_length floor l : (length (at_least floor l) <= length l)%nat.
Proof. apply List.filter_length_le. Qed.

Lemma at_least_Forall (P : Z -> Prop) floor l :
  Forall P l -> Forall P (at_least floor l).
Proof.
  induction 1 as [|x l Hx _ IH]; simpl; [constructor|].
  destruct (floor <=? x); [constructor|]; assumption.
Qed.

Lemma at_least_floor floor l : Forall (fun x => floor <= x) (at_least floor l).
Proof.
  induction l as [|x l IH]; simpl; [constructor|].
  destruct (Z.leb_spec floor x); [constructor|]; assumption.
Qed.

Lemma at_least_last floor hi l :
  floor <= hi -> last l = Some hi -> last (at_least floor l) = Some hi.
Proof.
  intros Hhi. induction l as [|x l IH]; [discriminate|].
  destruct l as [|y l'].
  - intros [= ->]. simpl. destruct (Z.leb_spec floor hi); [reflexivity|lia].
  - intros Hlast. change (last (x :: y :: l')) with (last (y :: l')) in Hlast.
    specialize (IH Hlast). change (at_least floor (x :: y :: l'))
      with (if floor <=? x then x :: at_least floor (y :: l')
            else at_least floor (y :: l')).
    destruct (floor <=? x); [|exact IH].
    destruct (at_least floor (y :: l')); [discriminate | exact IH].
Qed.

(** *** Integer roots *)

Lemma iroot_bits_spec (k : nat) x bits r :
  (1 <= k)%nat -> 0 <= r ->
  r ^ Z.of_nat k <= x < (r + 2 ^ Z.of_nat bits) ^ Z.of_nat k ->
  let r' := iroot_bits k x bits r in
  0 <= r' /\ r' ^ Z.of_nat k <= x < (r' + 1) ^ Z.of_nat k.
Proof.
  intros Hk. revert r. induction bits as [|b IH]; intros r Hr Hinv; simpl.
  - simpl in Hinv. auto.
  - assert (Hpow : 2 ^ Z.of_nat (S b) = 2 ^ Z.of_nat b + 2 ^ Z.of_nat b).
    { rewrite Nat2Z.inj_succ, Z.pow_succ_r by lia. lia. }
    assert (Hpos : 0 < 2 ^ Z.of_nat b) by (apply Z.pow_pos_nonneg; lia).
    rewrite Hpow in Hinv.
    destruct (Z.leb_spec ((r + 2 ^ Z.of_nat b) ^ Z.of_nat k) x) as [Hle|Hgt].
    + apply IH; [lia|]. split; [exact Hle|].
      replace (r + 2 ^ Z.of_nat b + 2 ^ Z.of_nat b)
        with (r + (2 ^ Z.of_nat b + 2 ^ Z.of_nat b)) by lia.
      apply Hinv.
    + apply IH; [lia|]. split; [apply Hinv | exact Hgt].
Qed.

Lemma iroot_spec (k : nat) x :
  (1 <= k)%nat -> 0 <= x ->
  0 <= iroot k x /\
  iroot k x ^ Z.of_nat k <= x < (iroot k x + 1) ^ Z.of_nat k.
Proof.
  intros Hk Hx. unfold iroot. apply iroot_bits_spec; [exact Hk | lia |].
  split.
  - rewrite Z.pow_0_l by lia. exact Hx.
  - rewrite Z.add_0_l.
    set (B := Z.of_nat (S (Z.to_nat (Z.log2 x)))).
    assert (HB : x < 2 ^ B).
    { unfold B. rewrite Nat2Z.inj_succ, Z2Nat.id by apply Z.log2_nonneg.
      destruct (Z.eq_dec x 0) as [->|Hne]; [reflexivity|].
      apply Z.log2_spec. lia. }
    assert (H1 : 1 <= 2 ^ B).
    { assert (0 < 2 ^ B) by (apply Z.pow_pos_nonneg; unfold B; lia). lia. }
    replace (Z.of_nat k) with (Z.succ (Z.of_nat (k - 1))) by lia.
    rewrite Z.pow_succ_r by lia.
    assert (1 <= (2 ^ B) ^ Z.of_nat (k - 1)).
    { assert (0 < (2 ^ B) ^ Z.of_nat (k - 1)) by (apply Z.pow_pos_nonneg; lia).
      lia. }
    nia.
Qed.

Lemma iroot_mono (k : nat) x y :
  (1 <= k)%nat -> 0 <= x <= y -> iroot k x <= iroot k y.
Proof.
  intros Hk Hxy.
  destruct (iroot_spec k x Hk) as (Hx0 & Hx1 & _); [lia|].
  destruct (iroot_spec k y Hk) as (Hy0 & _ & Hy2); [lia|].
  destruct (Z.le_gt_cases (iroot k x) (iroot k y)) as [|Hgt]; [assumption|].
  assert ((iroot k y + 1) ^ Z.of_nat k <= iroot k x ^ Z.of_nat k)
    by (apply Z.pow_le_mono_l; lia).
  lia.
Qed.

Lemma iroot_pow (k : nat) n :
  (1 <= k)%nat -> 0 <= n -> iroot k (n ^ Z.of_nat k) = n.
Proof.
  intros Hk Hn.
  assert (Hnk : 0 <= n ^ Z.of_nat k) by (apply Z.pow_nonneg; lia).
  destruct (iroot_spec k _ Hk Hnk) as (Hr0 & Hr1 & Hr2).
  set (r := iroot k (n ^ Z.of_nat k)) in *.
  destruct (Z.lt_trichotomy r n) as [Hlt|[Heq|Hgt]]; [|exact Heq|].
  - assert ((r + 1) ^ Z.of_nat k <= n ^ Z.of_nat k)
      by (apply Z.pow_le_mono_l; lia).
    lia.
  - assert (n ^ Z.of_nat k < r ^ Z.of_nat k)
      by (apply Z.pow_lt_mono_l; lia).
    lia.
Qed.

(** *** The raw points *)

Lemma last_map_seq {A} (f : nat -> A) start n :
  last (List.map f (seq start (S n))) = Some (f (start + n)%nat).
Proof.
  rewrite seq_S, List.map_app. simpl. apply last_snoc.
Qed.

Lemma log_point_le (m : nat) hi (k : nat) :
  (1 <= m)%nat -> 0 < hi ->
  0 <= iroot m (hi ^ Z.of_nat m / 10 ^ Z.of_nat k) <= hi.
Proof.
  intros Hm Hhi.
  assert (Hpow : 0 < hi ^ Z.of_nat m) by (apply Z.pow_pos_nonneg; lia).
  assert (Hten : 0 < 10 ^ Z.of_nat k) by (apply Z.pow_pos_nonneg; lia).
  assert (Hq : 0 <= hi ^ Z.of_nat m / 10 ^ Z.of_nat k <= hi ^ Z.of_nat m).
  { split; [apply Z.div_pos; lia|].
    apply Z.div_le_upper_bound; [exact Hten | nia]. }
  split; [now apply iroot_spec|].
  rewrite <- (iroot_pow m hi) at 2 by lia.
  now apply iroot_mono.
Qed.

Lemma log_points_spec (m : nat) hi (n : nat) :
  (1 <= m)%nat -> 0 < hi -> (1 <= n)%nat ->
  length (log_points m hi n) = n /\
  Forall (fun x => 0 <= x <= hi) (log_points m hi n) /\
  last (log_points m hi n) = Some hi.
Proof.
  intros Hm Hhi Hn. unfold log_points. split; [|split].
  - now rewrite length_map, length_rev, length_seq.
  - apply Forall_forall. intros x (k & <- & _)%list_elem_of_In%in_map_iff.
    now apply log_point_le.
  - destruct n as [|n']; [lia|].
    change (seq 0 (S n')) with (0%nat :: seq 1 n').
    cbn [rev]. rewrite List.map_app. cbn [List.map]. rewrite last_snoc.
    f_equal. rewrite Z.pow_0_r, Z.div_1_r. apply iroot_pow; lia.
Qed.

Lemma linear_points_spec hi (n : nat) :
  0 < hi -> (1 <= n)%nat ->
  length (linear_points hi n) = n /\
  Forall (fun x => 0 <= x <= hi) (linear_points hi n) /\
  last (linear_points hi n) = Some hi.
Proof.
  intros Hhi Hn. unfold linear_points. split; [|split].
  - now rewrite length_map, length_seq.
  - apply Forall_forall. intros x (i & <- & Hi%in_seq)%list_elem_of_In%in_map_iff.
    split; [apply Z.div_pos; lia|].
    apply Z.div_le_upper_bound; [lia|]. nia.
  - destruct n as [|m]; [lia|]. rewrite last_map_seq. f_equal.
    replace (1 + m)%nat with (S m) by lia.
    rewrite Z.mul_comm. apply Z.div_mul. lia.
Qed.

(** C3.  For every valid input, that is a fold of at least the minimum
    viable size, at least two ticks and scale mode ['linear'] or
    ['log10'], the ShardScheduler returns a strictly increasing sequence
    of integers, of length at most [n_shards], whose last element is
    [n_train].  Every size is positive and at most [n_train], and on the
    log scale none is below the minimum viable size. *)
Theorem shard_sizes_increasing min_shard n_train n_shards scale :
  0 < min_shard <= n_train ->
  2 <= n_shards ->
  scale = "linear" \/ scale = "log10" ->
  exists sizes,
    shard_sizes min_shard n_train n_shards scale = inr sizes /\
    StronglySorted Z.lt sizes /\
    Z.of_nat (length sizes) <= n_shards /\
    last sizes = Some n_train /\
    Forall (fun s => 0 < s <= n_train) sizes /\
    (scale = "log10" -> Forall (fun s => min_shard <= s) sizes).
Proof.
  intros Hmin Hn Hscale. unfold shard_sizes.
  assert (Hmode : exists mode, parse_scale scale = Some mode /\
                               (scale = "log10" -> mode = Log10))
    by (destruct Hscale as [->| ->]; eexists; split;
        [reflexivity|discriminate|reflexivity|reflexivity]).
  destruct Hmode as (mode & -> & Hlog).
  destruct (Z.ltb_spec n_shards 1) as [?|_]; [lia|].
  destruct (Z.ltb_spec n_train min_shard) as [?|_]; [lia|].
  destruct (Z.eqb_spec n_shards 1) as [?|_]; [lia|].
  set (n := Z.to_nat n_shards).
  set (pts := match mode with
              | Linear => linear_points n_train n
              | Log10 =>
                  at_least min_shard (log_points ticks_per_decade n_train n)
              end).
  assert (Hpts : (length pts <= n)%nat /\
                 Forall (fun x => 0 <= x <= n_train) pts /\
                 last pts = Some n_train).
  { unfold pts. destruct mode.
    - destruct (linear_points_spec n_train n) as (Hlen & Hall & Hlast);
        [lia | unfold n; lia |].
      rewrite Hlen. auto.
    - destruct (log_points_spec ticks_per_decade n_train n)
        as (Hlen & Hall & Hlast); [unfold ticks_per_decade; lia | lia
                                  | unfold n; lia |].
      split; [|split].
      + rewrite <- Hlen at 2. apply at_least_length.
      + now apply at_least_Forall.
      + apply at_least_last; [lia | exact Hlast]. }
  destruct Hpts as (Hlen & Hall & Hlast).
  exists (increasing_from 0 pts). split; [reflexivity|].
  split; [apply increasing_from_sorted|]. split; [|split; [|split]].
  - pose proof (increasing_from_length 0 pts) as Hle.
    assert (Hle' : (length (increasing_from 0 pts) <= n)%nat) by lia.
    apply Nat2Z.inj_le in Hle'.
    replace (Z.of_nat n) with n_shards in Hle' by (unfold n; lia).
    exact Hle'.
  - apply increasing_from_last; [lia | | exact Hlast].
    eapply Forall_impl; [exact Hall|]. simpl. lia.
  - pose proof (increasing_from_above 0 pts) as Habove.
    pose proof (increasing_from_Forall _ 0 pts Hall) as Hin.
    apply Forall_forall. intros s Hs.
    rewrite Forall_forall in Habove, Hin.
    specialize (Habove s Hs). specialize (Hin s Hs). simpl in *. lia.
  - intros ->%Hlog. unfold pts.
    apply increasing_from_Forall, at_least_floor.
Qed.

Lemma shard_sizes_increasing_witness :
  exists sizes,
    shard_sizes 30 1000 5 "log10" = inr sizes /\
    StronglySorted Z.lt sizes /\
    Z.of_nat (length sizes) <= 5 /\
    last sizes = Some 1000 /\
    Forall (fun s => 0 < s <= 1000) sizes /\
    Forall (fun s => 30 <= s) sizes.
Proof.
  destruct (shard_sizes_increasing 30 1000 5 "log10")
    as (sizes & H1 & H2 & H3 & H4 & H5 & H6);
    [lia | lia | right; reflexivity |].
  exists sizes. repeat split; auto.
Defined.

End ShardSchedulerFacts.

(* ===================================================================== *)
(** ** Drawing a shard *)
(* ===================================================================== *)

Module ShardRunnerFacts.
Import ShardRunner.

Example draw_three :
  fst (draw_shard lcg 42 3 demo_fold {| rng_state := 7%Z : gen lcg;
                                        shards_drawn := 0 |})
  = [12; 13; 14]%Z.
Proof. reflexivity. Qed.

Section Drawing.
Variable R : RandomSource.
Implicit Types (st : RunnerState R) (fold : FoldAssignment).

Lemma draw_shard_ids seed size fold st :
  fst (draw_shard R seed size fold st)
  = firstn size (fst (reorder R (pin R seed) (train_ids fold))).
Proof.
  unfold draw_shard. now destruct (reorder R (pin R seed) (train_ids fold)).
Qed.

(** Shards are nested: a smaller shard starts a larger one. *)
Lemma draw_shard_nested seed size size' fold st st' :
  (size <= size')%nat ->
  firstn size (fst (draw_shard R seed size' fold st'))
  = fst (draw_shard R seed size fold st).
Proof.
  intros Hle. rewrite !draw_shard_ids, firstn_firstn. f_equal. lia.
Qed.


Lemma run_shards_length seed sizes fold st :
  length (fst (run_shards R seed sizes fold st)) = length sizes.
Proof.
  revert st. induction sizes as [|s sizes IH]; intros st; [reflexivity|].
  cbn [run_shards]. destruct (draw_shard R seed s fold st) as [shard st1].
  specialize (IH st1).
  destruct (run_shards R seed sizes fold st1). cbn [fst length] in *.
  now rewrite IH.
Qed.

End Drawing.




(** A fresh resample per call is not reproducible: the same size and
    fold give different shards from different generator states. *)
Lemma draw_fresh_resamples :
  fst (draw_fresh lcg 3 demo_fold {| rng_state := 7%Z : gen lcg;
                                     shards_drawn := 0 |})
  <> fst (draw_fresh lcg 3 demo_fold {| rng_state := 8%Z : gen lcg;
                                        shards_drawn := 0 |}).
Proof. vm_compute. discriminate. Qed.

(** The seed matters: two seeds may order the fold differently. *)
Lemma draw_shard_seed_matters :
  fst (draw_shard lcg 42 3 demo_fold {| rng_state := 7%Z : gen lcg;
                                        shards_drawn := 0 |})
  <> fst (draw_shard lcg 43 3 demo_fold {| rng_state := 7%Z : gen lcg;
                                           shards_drawn := 0 |}).
Proof. vm_compute. discriminate. Qed.



End ShardRunnerFacts.

(* ===================================================================== *)
(** * Further properties of the driver *)
(* ===================================================================== *)

(** ** More on the trace monad *)

Section MonadComposition.
Context {A B : Type}.
Implicit Types (m : M A) (k : A -> M B).

Lemma in_trace_bind_l m k ev : In ev (trace m) -> In ev (trace (bind m k)).
Proof.
  rewrite trace_bind. destruct (outcome m); [easy|].
  intros H. apply in_or_app. now left.
Qed.

Lemma in_trace_bind_r m k a ev :
  outcome m = inr a -> In ev (trace (k a)) -> In ev (trace (bind m k)).
Proof.
  intros Hm H. rewrite trace_bind, Hm. apply in_or_app. now right.
Qed.

Lemma outcome_bind_inr m k b :
  outcome (bind m k) = inr b ->
  exists a, outcome m = inr a /\ outcome (k a) = inr b.
Proof.
  rewrite outcome_bind. destruct (outcome m) as [e|a]; [discriminate|eauto].
Qed.

Lemma length_omap_bind {C} (f : Event -> option C) m k :
  length (omap f (trace (bind m k))) =
  (length (omap f (trace m)) +
   match outcome m with
   | inl _ => 0
   | inr a => length (omap f (trace (k a)))
   end)%nat.
Proof.
  rewrite trace_bind. destruct (outcome m); [lia|].
  now rewrite omap_app, length_app.
Qed.
End MonadComposition.

Lemma bind_ret_l {A B} (a : A) (k : A -> M B) : bind (ret a) k = k a.
Proof. unfold bind, ret. now destruct (k a). Qed.

Lemma derive_mltype_cases name :
  (exists msg, derive_mltype name = raise (ValueError msg)) \/
  (exists mltype, derive_mltype name = ret mltype).
Proof.
  unfold derive_mltype. destruct (contains "reg" name); [right; eauto|].
  destruct (contains "cls" name); [right; eauto|left; eauto].
Qed.

(** ** The four ways a run can go *)

(** [run] either stops at [Path(None)], or at the [mltype] test, or while
    loading, or it loads exactly one data source and runs the loop body on
    it, printing ['Done.'] when the body returns. *)
Lemma run_structure env args :
  (dirpath args = None /\ run env args = ([], inl TypeError)) \/
  exists d,
    dirpath args = Some d /\
    ((exists msg,
        derive_mltype (model_name args) = raise (ValueError msg) /\
        run env args = ([], inl (ValueError msg))) \/
     exists mltype,
       derive_mltype (model_name args) = ret mltype /\
       ((exists e,
           outcome (load_data env args (Some (Path env d))) = inl e /\
           run env args =
           (trace (load_data env args (Some (Path env d))), inl e)) \/
        exists src data,
          outcome (load_data env args (Some (Path env d)))
          = inr [(src, data)] /\
          run env args =
          ((trace (load_data env args (Some (Path env d))) ++
            trace (process_source env args mltype
                     (clr_keras_kwargs_of args) src data) ++
            match outcome (process_source env args mltype
                             (clr_keras_kwargs_of args) src data) with
            | inl _ => []
            | inr _ => [EvPrint "Done."]
            end)%list,
           outcome (process_source env args mltype
                      (clr_keras_kwargs_of args) src data)))).
Proof.
  unfold run. destruct (dirpath args) as [d|]; [right|now left].
  exists d. split; [reflexivity|].
  cbn [Path_of]. rewrite bind_ret_l.
  destruct (derive_mltype_cases (model_name args))
    as [(msg & Hml)|(mltype & Hml)]; rewrite Hml.
  { left. exists msg. split; reflexivity. }
  right. exists mltype. split; [reflexivity|]. rewrite bind_ret_l.
  set (load := load_data env args (Some (Path env d))).
  rewrite (M_eta (bind load _)), trace_bind, outcome_bind.
  destruct (outcome load) as [e|dfs] eqn:Hload.
  { left. exists e. split; reflexivity. }
  right. apply load_data_returned in Hload as Hdfs.
  destruct Hdfs as (src & y & xd & tr & vl & -> & _).
  exists src, (y, xd, tr, vl). split; [reflexivity|].
  rewrite trace_bind, outcome_bind, trace_for_each_singleton,
    outcome_for_each_singleton.
  cbv beta iota.
  destruct (outcome (process_source _ _ _ _ _ _)) as [e|[]];
    [now rewrite app_nil_r | reflexivity].
Qed.

(** ** [read_data_file] *)

(** X1.  [read_data_file] looks the file up first.  A missing file gives
    [None] without any read, whatever the format.  For an existing file
    and a format other than ['csv'] and ['parquet'] nothing is read
    either and the unassigned local [df] surfaces as
    [UnboundLocalError].  Only ['csv'] reads with [read_csv] and only
    ['parquet'] with [read_parquet]. *)
Theorem read_data_file_edges env fpath fmt :
  (is_file env (Path env fpath) = false ->
   read_data_file env fpath fmt = ([EvIsFile (Path env fpath)], inr None)) /\
  (is_file env (Path env fpath) = true ->
   fmt <> "csv" -> fmt <> "parquet" ->
   read_data_file env fpath fmt =
   ([EvIsFile (Path env fpath)], inl (UnboundLocalError "df"))) /\
  (forall ev,
     In ev (trace (read_data_file env fpath fmt)) ->
     ev = EvIsFile (Path env fpath) \/
     is_file env (Path env fpath) = true /\
     (fmt = "csv" /\ ev = EvReadCsv (Path env fpath) \/
      fmt = "parquet" /\ ev = EvReadParquet (Path env fpath))).
Proof.
  unfold read_data_file. cbv zeta. split; [|split].
  - intros Hf. unfold call, bind. now rewrite Hf.
  - intros Hf Hcsv%String.eqb_neq Hpq%String.eqb_neq.
    unfold call, bind. now rewrite Hf, Hcsv, Hpq.
  - intros ev Hin. in_trace Hin; subst ev; auto.
    all: right; split; [simpl in *; congruence|].
    all: repeat match goal with
                | E : String.eqb _ _ = true |- _ => apply String.eqb_eq in E
                end; subst; auto.
Qed.

Lemma read_data_file_edges_witness :
  read_data_file Demo.env "/data/ccle_cv_simple/ydata.parquet" "parquet"
  = ([EvIsFile "/data/ccle_cv_simple/ydata.parquet"], inr None) /\
  read_data_file Demo.env "/data/ccle_cv_simple/xdata.parquet" "feather"
  = ([EvIsFile "/data/ccle_cv_simple/xdata.parquet"],
     inl (UnboundLocalError "df")).
Proof.
  split.
  - apply (read_data_file_edges Demo.env
             "/data/ccle_cv_simple/ydata.parquet" "parquet").
    reflexivity.
  - apply (read_data_file_edges Demo.env
             "/data/ccle_cv_simple/xdata.parquet" "feather");
      [reflexivity | discriminate | discriminate].
Defined.

(** ** Loading *)

Lemma derive_mltype_ok name :
  contains "reg" name = true \/ contains "cls" name = true ->
  exists mltype, derive_mltype name = ret mltype.
Proof.
  unfold derive_mltype. intros [H|H].
  - rewrite H. eauto.
  - rewrite H. destruct (contains "reg" name); eauto.
Qed.

Lemma column_positions_nil name cols i :
  ~ In name cols -> column_positions name cols i = [].
Proof.
  revert i. induction cols as [|c cols IH]; intros i Hn; simpl; [reflexivity|].
  destruct (String.eqb_spec c name) as [->|_].
  - exfalso. apply Hn. now left.
  - apply IH. intros H. apply Hn. now right.
Qed.

Lemma in_trace_read_parquet_file env fpath ev :
  In ev (trace (read_data_file env fpath "parquet")) ->
  exists p, ev = EvIsFile p \/ ev = EvReadParquet p.
Proof.
  unfold read_data_file. change (String.eqb "parquet" "csv") with false.
  change (String.eqb "parquet" "parquet") with true.
  intros H. in_trace H; subst ev; eauto.
Qed.

Lemma read_data_file_missing env fpath fmt :
  is_file env (Path env fpath) = false ->
  read_data_file env fpath fmt = ([EvIsFile (Path env fpath)], inr None).
Proof. intros Hf. unfold read_data_file, call, bind. now rewrite Hf. Qed.

Lemma read_data_file_present env fpath x :
  is_file env (Path env fpath) = true ->
  read_parquet env (Path env fpath) = inr x ->
  read_data_file env fpath "parquet" =
  ([EvIsFile (Path env fpath); EvReadParquet (Path env fpath)], inr (Some x)).
Proof.
  intros Hf Hr. unfold read_data_file, call, bind. rewrite Hf, Hr. reflexivity.
Qed.

(** What a successful [load_data] has done and returns. *)
Lemma load_data_returned_full env args d dfs :
  outcome (load_data env args (Some d)) = inr dfs ->
  let xpath := joinpath env d "xdata.parquet" in
  let mpath := joinpath env d "meta.parquet" in
  let tr_path := joinpath env d (py_str (cv_folds args) ++ "fold_tr_id.csv") in
  let vl_path := joinpath env d (py_str (cv_folds args) ++ "fold_vl_id.csv") in
  exists xd meta y tr vl,
    dfs = [(split_underscore_0 (path_name env d), (y, xd, tr, vl))] /\
    outcome (read_data_file env xpath "parquet") = inr xd /\
    outcome (read_data_file env mpath "parquet") = inr (Some meta) /\
    getitem_column meta (target_name args) = ret y /\
    read_csv env tr_path = inr tr /\
    read_csv env vl_path = inr vl /\
    trace (load_data env args (Some d)) =
    (trace (read_data_file env xpath "parquet") ++
     trace (read_data_file env mpath "parquet") ++
     [EvReadCsv tr_path; EvReadCsv vl_path])%list.
Proof.
  cbv zeta. unfold load_data. cbv zeta.
  destruct (read_data_file env (joinpath env d "xdata.parquet") "parquet")
    as [t1 [e1|xd]];
    cbv beta iota delta [bind outcome trace fst snd]; [discriminate|].
  destruct (read_data_file env (joinpath env d "meta.parquet") "parquet")
    as [t2 [e2|[meta|]]];
    cbv beta iota delta [bind outcome trace fst snd raise];
    [discriminate| |discriminate].
  pose proof (trace_getitem_column meta (target_name args)) as Ht3.
  destruct (getitem_column meta (target_name args)) as [t3 [e3|y]] eqn:Hy;
    cbv beta iota delta [bind outcome trace fst snd] in *; [discriminate|].
  subst t3. unfold call.
  destruct (read_csv env (joinpath env d (py_str (cv_folds args) ++ "fold_tr_id.csv")))
    as [|tr]; cbv beta iota delta [bind outcome trace fst snd];
    [discriminate|].
  destruct (read_csv env (joinpath env d (py_str (cv_folds args) ++ "fold_vl_id.csv")))
    as [|vl]; cbv beta iota delta [bind outcome trace fst snd ret];
    [discriminate|].
  intros [= <-]. exists xd, meta, y, tr, vl. repeat split. exact Hy.
Qed.

Lemma run_load_failed env args d e :
  dirpath args = Some d ->
  contains "reg" (model_name args) = true \/
  contains "cls" (model_name args) = true ->
  outcome (load_data env args (Some (Path env d))) = inl e ->
  run env args = (trace (load_data env args (Some (Path env d))), inl e).
Proof.
  intros Hd Hml Hload.
  destruct (run_structure env args)
    as [[Hn _]|(d' & Hd' & [(msg & Hv & _)|(mltype & _ & Hcases)])].
  - congruence.
  - apply derive_mltype_ok in Hml as (mltype & Hml). rewrite Hml in Hv.
    discriminate.
  - assert (d' = d) as -> by congruence.
    destruct Hcases as [(e' & He' & Hrun)|(src & data & Hok & _)];
      congruence.
Qed.

Lemma load_data_no_meta env args d xd :
  outcome (read_data_file env (joinpath env d "xdata.parquet") "parquet")
  = inr xd ->
  is_file env (Path env (joinpath env d "meta.parquet")) = false ->
  load_data env args (Some d) =
  ((trace (read_data_file env (joinpath env d "xdata.parquet") "parquet") ++
    [EvIsFile (Path env (joinpath env d "meta.parquet"))])%list,
   inl TypeError).
Proof.
  intros Hx Hm. unfold load_data. cbv zeta.
  rewrite (read_data_file_missing _ (joinpath env d "meta.parquet")) by exact Hm.
  destruct (read_data_file env (joinpath env d "xdata.parquet") "parquet")
    as [t1 [e1|xd']]; [discriminate|].
  reflexivity.
Qed.

Lemma load_data_no_target env args d xd meta :
  outcome (read_data_file env (joinpath env d "xdata.parquet") "parquet")
  = inr xd ->
  is_file env (Path env (joinpath env d "meta.parquet")) = true ->
  read_parquet env (Path env (joinpath env d "meta.parquet")) = inr meta ->
  ~ In (target_name args) (columns meta) ->
  load_data env args (Some d) =
  ((trace (read_data_file env (joinpath env d "xdata.parquet") "parquet") ++
    [EvIsFile (Path env (joinpath env d "meta.parquet"));
     EvReadParquet (Path env (joinpath env d "meta.parquet"))])%list,
   inl (KeyError (target_name args))).
Proof.
  intros Hx Hm Hr Hcol. unfold load_data. cbv zeta.
  rewrite (read_data_file_present _ (joinpath env d "meta.parquet") meta)
    by assumption.
  destruct (read_data_file env (joinpath env d "xdata.parquet") "parquet")
    as [t1 [e1|xd']]; [discriminate|].
  cbv beta iota delta [bind]. unfold getitem_column.
  rewrite column_positions_nil by exact Hcol. reflexivity.
Qed.

(** X2.  A failure while loading is fatal and early: when the model name
    is acceptable and [load_data] fails on the data directory, [run] ends
    with that very failure, and all it did was look up and read input
    files: nothing was scaled, no output directory was made, the engine
    was not touched. *)
Theorem loading_failure_stops_run env args d e :
  dirpath args = Some d ->
  contains "reg" (model_name args) = true \/
  contains "cls" (model_name args) = true ->
  outcome (load_data env args (Some (Path env d))) = inl e ->
  outcome (run env args) = inl e /\
  Forall (fun ev => is_load_event ev = true) (trace (run env args)).
Proof.
  intros Hd Hml Hload. rewrite (run_load_failed _ _ _ _ Hd Hml Hload).
  split; [reflexivity|]. apply Forall_forall.
  intros ev Hev%list_elem_of_In. now apply in_trace_load_data in Hev.
Qed.

Lemma loading_failure_stops_run_witness :
  outcome (run Scenarios.env_no_meta (Demo.args "lgb_reg")) = inl TypeError /\
  Forall (fun ev => is_load_event ev = true)
         (trace (run Scenarios.env_no_meta (Demo.args "lgb_reg"))).
Proof.
  apply (loading_failure_stops_run Scenarios.env_no_meta (Demo.args "lgb_reg")
           "/data/ccle_cv_simple" TypeError);
    [reflexivity | left; reflexivity | vm_compute; reflexivity].
Defined.

(** X3.  A data directory without [meta.parquet] is not reported as a
    missing file: [read_data_file] answers [None], and subscripting it
    ([meta[[target_name]]]) raises [TypeError].  At that point only the
    two parquet files were looked up; the fold index files were not
    read. *)
Theorem missing_meta_TypeError env args d xd :
  dirpath args = Some d ->
  contains "reg" (model_name args) = true \/
  contains "cls" (model_name args) = true ->
  outcome (read_data_file env (joinpath env (Path env d) "xdata.parquet")
                          "parquet") = inr xd ->
  is_file env (Path env (joinpath env (Path env d) "meta.parquet")) = false ->
  outcome (run env args) = inl TypeError /\
  forall ev, In ev (trace (run env args)) ->
             exists p, ev = EvIsFile p \/ ev = EvReadParquet p.
Proof.
  intros Hd Hml Hx Hm.
  pose proof (load_data_no_meta env args _ _ Hx Hm) as Hload.
  rewrite (run_load_failed env args d TypeError Hd Hml)
    by (now rewrite Hload).
  split; [reflexivity|]. rewrite Hload. cbn [trace fst].
  intros ev [Hev|[<-|[]]]%in_app_or; [|eauto].
  now apply in_trace_read_parquet_file in Hev.
Qed.

Lemma missing_meta_TypeError_witness :
  outcome (run Scenarios.env_no_meta (Demo.args "lgb_reg")) = inl TypeError /\
  forall ev,
    In ev (trace (run Scenarios.env_no_meta (Demo.args "lgb_reg"))) ->
    exists p, ev = EvIsFile p \/ ev = EvReadParquet p.
Proof.
  apply (missing_meta_TypeError Scenarios.env_no_meta (Demo.args "lgb_reg")
           "/data/ccle_cv_simple" (Some Demo.frame_x));
    [reflexivity | left; reflexivity | reflexivity | reflexivity].
Defined.

(** X4.  A target that is not a column of [meta.parquet] raises
    [KeyError] for that name as soon as the meta data is read: the fold
    index files are not read and nothing is scaled or written. *)
Theorem missing_target_KeyError env args d xd meta :
  dirpath args = Some d ->
  contains "reg" (model_name args) = true \/
  contains "cls" (model_name args) = true ->
  outcome (read_data_file env (joinpath env (Path env d) "xdata.parquet")
                          "parquet") = inr xd ->
  is_file env (Path env (joinpath env (Path env d) "meta.parquet")) = true ->
  read_parquet env (Path env (joinpath env (Path env d) "meta.parquet"))
  = inr meta ->
  ~ In (target_name args) (columns meta) ->
  outcome (run env args) = inl (KeyError (target_name args)) /\
  forall ev, In ev (trace (run env args)) ->
             exists p, ev = EvIsFile p \/ ev = EvReadParquet p.
Proof.
  intros Hd Hml Hx Hm Hr Hcol.
  pose proof (load_data_no_target env args _ _ _ Hx Hm Hr Hcol) as Hload.
  rewrite (run_load_failed env args d _ Hd Hml) by (now rewrite Hload).
  split; [reflexivity|]. rewrite Hload. cbn [trace fst].
  intros ev [Hev|[<-|[<-|[]]]]%in_app_or; eauto.
  now apply in_trace_read_parquet_file in Hev.
Qed.

Lemma missing_target_KeyError_witness :
  outcome (run Demo.env (Scenarios.args_with "lgb_reg" "IC50" (Some "stnd")))
  = inl (KeyError "IC50").
Proof.
  apply (missing_target_KeyError Demo.env
           (Scenarios.args_with "lgb_reg" "IC50" (Some "stnd"))
           "/data/ccle_cv_simple" (Some Demo.frame_x) Demo.frame_meta);
    [reflexivity | left; reflexivity | reflexivity | reflexivity
     | reflexivity |].
  simpl. intros [H|[H|[]]]; discriminate.
Defined.

(** ** Failures of the scaling step *)

Lemma run_scale_failed env args d src y xd tr vl e :
  dirpath args = Some d ->
  contains "reg" (model_name args) = true \/
  contains "cls" (model_name args) = true ->
  outcome (load_data env args (Some (Path env d)))
  = inr [(src, (y, xd, tr, vl))] ->
  outcome (scale env args xd) = inl e ->
  run env args =
  ((trace (load_data env args (Some (Path env d))) ++
    trace (scale env args xd))%list, inl e).
Proof.
  intros Hd Hml Hload Hscale.
  destruct (run_structure env args)
    as [[Hn _]|(d' & Hd' & [(msg & Hv & _)|(mltype & _ & Hcases)])].
  - congruence.
  - apply derive_mltype_ok in Hml as (mltype & Hml). rewrite Hml in Hv.
    discriminate.
  - assert (d' = d) as -> by congruence.
    destruct Hcases as [(e' & He' & _)|(src' & data & Hok & Hrun)];
      [congruence|].
    rewrite Hload in Hok. injection Hok as <- <-. rewrite Hrun.
    unfold process_source. rewrite (bind_raised _ _ _ Hscale).
    cbn [trace outcome fst snd]. now rewrite app_nil_r.
Qed.

Lemma read_data_file_some env fpath xd :
  is_file env (Path env fpath) = true ->
  outcome (read_data_file env fpath "parquet") = inr xd ->
  exists x, xd = Some x.
Proof.
  intros Hf. unfold read_data_file, call, bind. rewrite Hf.
  change (String.eqb "parquet" "csv") with false.
  change (String.eqb "parquet" "parquet") with true. cbv iota.
  destruct (read_parquet env (Path env fpath)); [discriminate|].
  cbn. intros [= <-]. eauto.
Qed.

(** X5.  A missing [xdata.parquet] is noticed late.  Loading goes through
    (the fold index files are read), and only the loop body fails, at
    [xdata.columns], with [AttributeError]: nothing is scaled, no output
    directory is made and the engine is not touched. *)
Theorem missing_xdata_detected_late env args d dfs :
  dirpath args = Some d ->
  contains "reg" (model_name args) = true \/
  contains "cls" (model_name args) = true ->
  is_file env (Path env (joinpath env (Path env d) "xdata.parquet")) = false ->
  outcome (load_data env args (Some (Path env d))) = inr dfs ->
  outcome (run env args) = inl (AttributeError "columns") /\
  Forall (fun ev => is_load_event ev = true) (trace (run env args)) /\
  In (EvReadCsv (joinpath env (Path env d)
                   (py_str (cv_folds args) ++ "fold_tr_id.csv")))
     (trace (run env args)) /\
  In (EvReadCsv (joinpath env (Path env d)
                   (py_str (cv_folds args) ++ "fold_vl_id.csv")))
     (trace (run env args)).
Proof.
  intros Hd Hml Hx Hload.
  destruct (load_data_returned_full _ _ _ _ Hload)
    as (xd & meta & y & tr & vl & -> & Hxd & _ & _ & _ & _ & Htrace).
  rewrite read_data_file_missing in Hxd by exact Hx. injection Hxd as <-.
  rewrite (run_scale_failed env args d _ y None tr vl
             (AttributeError "columns") Hd Hml Hload eq_refl).
  cbn [trace outcome fst snd scale raise]. rewrite app_nil_r.
  split; [reflexivity|]. split.
  - apply Forall_forall. intros ev Hev%list_elem_of_In.
    now apply in_trace_load_data in Hev.
  - rewrite Htrace. split; apply in_or_app; right; apply in_or_app; right;
      simpl; auto.
Qed.

Lemma missing_xdata_detected_late_witness :
  outcome (run Scenarios.env_no_xdata (Demo.args "lgb_reg"))
  = inl (AttributeError "columns") /\
  In (EvReadCsv "/data/ccle_cv_simple/5fold_vl_id.csv")
     (trace (run Scenarios.env_no_xdata (Demo.args "lgb_reg"))).
Proof.
  destruct (missing_xdata_detected_late Scenarios.env_no_xdata
              (Demo.args "lgb_reg") "/data/ccle_cv_simple"
              [("ccle", (Build_DataFrame ["AUC"]
                           [[0.5%float]; [0.25%float]; [0.75%float]],
                         None, Demo.frame_ids [0%float; 1%float],
                         Demo.frame_ids [2%float]))])
    as (Hout & _ & _ & Hvl);
    [reflexivity | left; reflexivity | reflexivity
     | vm_compute; reflexivity |].
  split; [exact Hout | exact Hvl].
Defined.

(** X6.  A scaler that is [None] or not one of ['stnd'], ['minmax'],
    ['rbst'] is not rejected when it is selected: with the feature matrix
    loaded, the run fails only at [scaler.fit_transform], with
    [AttributeError], after all input files were read; no [fit_transform]
    runs and no output directory is made. *)
Theorem unknown_scaler_AttributeError env args d dfs :
  dirpath args = Some d ->
  contains "reg" (model_name args) = true \/
  contains "cls" (model_name args) = true ->
  is_file env (Path env (joinpath env (Path env d) "xdata.parquet")) = true ->
  outcome (load_data env args (Some (Path env d))) = inr dfs ->
  (forall name, scaler args = Some name ->
                name <> "stnd" /\ name <> "minmax" /\ name <> "rbst") ->
  outcome (run env args) = inl (AttributeError "fit_transform") /\
  Forall (fun ev => is_load_event ev = true) (trace (run env args)).
Proof.
  intros Hd Hml Hx Hload Hsc.
  destruct (load_data_returned_full _ _ _ _ Hload)
    as (xd & meta & y & tr & vl & -> & Hxd & _).
  destruct (read_data_file_some _ _ _ Hx Hxd) as (x & ->).
  assert (Hscale : scale env args (Some x)
                   = raise (AttributeError "fit_transform")).
  { unfold scale, select_scaler. destruct (scaler args) as [name|];
      [|reflexivity].
    destruct (Hsc name eq_refl) as (H1 & H2 & H3).
    apply String.eqb_neq in H1, H2, H3. now rewrite H1, H2, H3. }
  rewrite (run_scale_failed env args d _ y (Some x) tr vl
             (AttributeError "fit_transform") Hd Hml Hload)
    by (now rewrite Hscale).
  rewrite Hscale. cbn [trace outcome fst snd raise]. rewrite app_nil_r.
  split; [reflexivity|].
  apply Forall_forall. intros ev Hev%list_elem_of_In.
  now apply in_trace_load_data in Hev.
Qed.

Lemma unknown_scaler_AttributeError_witness :
  outcome (run Demo.env (Scenarios.args_with "lgb_reg" "AUC" (Some "standard")))
  = inl (AttributeError "fit_transform") /\
  outcome (run Demo.env (Scenarios.args_with "lgb_reg" "AUC" None))
  = inl (AttributeError "fit_transform").
Proof.
  split.
  - apply (unknown_scaler_AttributeError Demo.env
             (Scenarios.args_with "lgb_reg" "AUC" (Some "standard"))
             "/data/ccle_cv_simple"
             [("ccle", (Build_DataFrame ["AUC"]
                          [[0.5%float]; [0.25%float]; [0.75%float]],
                        Some Demo.frame_x, Demo.frame_ids [0%float; 1%float],
                        Demo.frame_ids [2%float]))]);
      [reflexivity | left; reflexivity | reflexivity
       | vm_compute; reflexivity |].
    intros name [= <-]. repeat split; discriminate.
  - apply (unknown_scaler_AttributeError Demo.env
             (Scenarios.args_with "lgb_reg" "AUC" None)
             "/data/ccle_cv_simple"
             [("ccle", (Build_DataFrame ["AUC"]
                          [[0.5%float]; [0.25%float]; [0.75%float]],
                        Some Demo.frame_x, Demo.frame_ids [0%float; 1%float],
                        Demo.frame_ids [2%float]))]);
      [reflexivity | left; reflexivity | reflexivity
       | vm_compute; reflexivity |].
    intros name [=].
Defined.

(** ** The loop body *)

Lemma create_outdir_cases env outdir args src :
  exists dir,
    create_outdir env outdir args src =
    ([EvMakedirs dir],
     match makedirs env dir with
     | Some what => inl (LibraryError what)
     | None => inr dir
     end).
Proof.
  unfold create_outdir. cbv zeta. unfold call_, call, bind.
  match goal with
  | |- context [makedirs env ?dir] =>
      exists dir; destruct (makedirs env dir); reflexivity
  end.
Qed.

Lemma create_outdir_returned env outdir args src dir :
  outcome (create_outdir env outdir args src) = inr dir ->
  trace (create_outdir env outdir args src) = [EvMakedirs dir] /\
  makedirs env dir = None.
Proof.
  destruct (create_outdir_cases env outdir args src) as (dir' & ->).
  cbn [outcome trace fst snd].
  destruct (makedirs env dir') eqn:Hmk; [discriminate|].
  intros [= <-]. auto.
Qed.

(** Events of [run] other than file look-ups and reads come from the loop
    body, run on the single loaded data source, or are the final
    ['Done.']. *)
Lemma run_loaded_inv env args ev :
  In ev (trace (run env args)) ->
  is_load_event ev = false ->
  exists d mltype src data,
    dirpath args = Some d /\
    derive_mltype (model_name args) = ret mltype /\
    outcome (load_data env args (Some (Path env d))) = inr [(src, data)] /\
    (forall ev', In ev' (trace (process_source env args mltype
                                  (clr_keras_kwargs_of args) src data)) ->
                 In ev' (trace (run env args))) /\
    outcome (run env args)
    = outcome (process_source env args mltype (clr_keras_kwargs_of args)
                              src data) /\
    (In ev (trace (process_source env args mltype (clr_keras_kwargs_of args)
                                  src data)) \/
     ev = EvPrint "Done." /\
     exists u, outcome (process_source env args mltype
                          (clr_keras_kwargs_of args) src data) = inr u).
Proof.
  intros Hin Hev.
  destruct (run_structure env args)
    as [[_ Hrun]|(d & Hd & [(msg & _ & Hrun)|(mltype & Hml & Hcases)])].
  - rewrite Hrun in Hin. destruct Hin.
  - rewrite Hrun in Hin. destruct Hin.
  - destruct Hcases as [(e & _ & Hrun)|(src & data & Hload & Hrun)].
    + rewrite Hrun in Hin. apply in_trace_load_data in Hin. congruence.
    + exists d, mltype, src, data. rewrite Hrun.
      cbn [trace outcome fst snd]. repeat split; auto.
      * intros ev' H'. apply in_or_app. right. apply in_or_app. now left.
      * rewrite Hrun in Hin. cbn [trace fst] in Hin.
        apply in_app_or in Hin as [Hin|Hin];
          [apply in_trace_load_data in Hin; congruence|].
        apply in_app_or in Hin as [Hin|Hin]; [now left|].
        destruct (outcome (process_source _ _ _ _ _ _)) as [e|u];
          [destruct Hin|].
        destruct Hin as [<-|[]]. right. eauto.
Qed.

(** X7.  [os.makedirs] is called without [exist_ok]: when it fails on
    the output directory (for instance because a run with the same name
    was started within the same minute), the run ends with that failure
    right after scaling; no logger is opened, the arguments are not
    dumped and the engine is not touched. *)
Theorem makedirs_failure_stops_run env args p what :
  In (EvMakedirs p) (trace (run env args)) ->
  makedirs env p = Some what ->
  outcome (run env args) = inl (LibraryError what) /\
  Forall (fun ev => is_load_event ev = true \/ is_fit_transform ev = true \/
                    ev = EvMakedirs p)
         (trace (run env args)).
Proof.
  intros Hin Hmk.
  destruct (run_structure env args)
    as [[_ Hrun]|(d & Hd & [(msg & _ & Hrun)|(mltype & Hml & Hcases)])];
    try (rewrite Hrun in Hin; destruct Hin).
  destruct Hcases as [(e & _ & Hrun)|(src & data & Hload & Hrun)].
  { rewrite Hrun in Hin. apply in_trace_load_data in Hin. discriminate. }
  assert (Hbody : In (EvMakedirs p)
                     (trace (process_source env args mltype
                               (clr_keras_kwargs_of args) src data))).
  { rewrite Hrun in Hin. cbn [trace fst] in Hin.
    apply in_app_or in Hin as [Hin|Hin];
      [apply in_trace_load_data in Hin; discriminate|].
    apply in_app_or in Hin as [Hin|Hin]; [exact Hin|].
    destruct (outcome (process_source _ _ _ _ _ _)); [destruct Hin|].
    destruct Hin as [[=]|[]]. }
  destruct data as [[[y xd] tr] vl].
  assert (Hps : process_source env args mltype (clr_keras_kwargs_of args) src
                  (y, xd, tr, vl)
                = ((trace (scale env args xd) ++ [EvMakedirs p])%list,
                   inl (LibraryError what))).
  { unfold process_source in *.
    destruct (outcome (scale env args xd)) as [e|scaled] eqn:Hs.
    { rewrite (bind_raised _ _ _ Hs) in Hbody.
      apply in_trace_scale in Hbody as (? & ? & _ & _ & [=]). }
    rewrite (bind_returned _ _ _ Hs) in *. cbn [trace outcome fst snd] in *.
    destruct (create_outdir_cases env (OUTDIR env) args src) as (dir & Hc).
    rewrite Hc in *.
    destruct (makedirs env dir) as [w|] eqn:Hdir.
    - cbn [bind trace outcome fst snd] in *.
      apply in_app_or in Hbody as [Hbody|[[= ->]|[]]].
      { apply in_trace_scale in Hbody as (? & ? & _ & _ & [=]). }
      rewrite Hmk in Hdir. now injection Hdir as ->.
    - exfalso.
      apply in_app_or in Hbody as [Hbody|Hbody].
      { apply in_trace_scale in Hbody as (? & ? & _ & _ & [=]). }
      apply in_trace_bind in Hbody as [[[= ->]|[]]|(a & _ & Hbody)];
        [congruence|].
      in_trace Hbody. }
  rewrite Hrun, Hps. cbn [trace outcome fst snd].
  split; [reflexivity|]. rewrite app_nil_r.
  apply Forall_app. split.
  - apply Forall_forall. intros ev Hev%list_elem_of_In.
    left. now apply in_trace_load_data in Hev.
  - apply Forall_app. split;
      [|constructor; [right; right; reflexivity | constructor]].
    apply Forall_forall. intros ev Hev%list_elem_of_In.
    apply in_trace_scale in Hev as (? & ? & _ & _ & ->). auto.
Qed.

Lemma makedirs_failure_stops_run_witness :
  outcome (run Scenarios.env_outdir_exists (Demo.args "lgb_reg"))
  = inl (LibraryError "FileExistsError").
Proof.
  apply (makedirs_failure_stops_run Scenarios.env_outdir_exists
           (Demo.args "lgb_reg")
           "/repo/src/LearningCurves/../../out//LearningCurves/ccle.lgb_reg.cvf5.rna.dsc.AUC_2019-7-4_h9-m30"
           "FileExistsError");
    [|reflexivity].
  vm_compute. do 7 right. left. reflexivity.
Defined.

(** Proves [In ev (trace m)] for a sequence [m] whose steps up to the one
    performing [ev] are known to have returned. *)
Ltac in_body :=
  cbv beta iota;
  first
    [ solve [ left; reflexivity ]
    | solve [ apply in_trace_bind_l;
              first [ left; reflexivity
                    | match goal with
                      | H : trace ?m = _ |- In _ (trace ?m) =>
                          rewrite H; left; reflexivity
                      end ] ]
    | eapply in_trace_bind_r; [eassumption | in_body] ].

(** Splits [H : outcome m = inr b] into the results of the steps of [m]. *)
Ltac returned H :=
  cbv beta iota zeta in H;
  lazymatch type of H with
  | outcome (bind _ _) = inr _ =>
      let a := fresh "r" in
      let Ha := fresh "Hr" in
      apply outcome_bind_inr in H;
      destruct H as (a & Ha & H); returned H
  | _ => idtac
  end.

Lemma call__returned ev f u :
  outcome (call_ ev f) = inr u -> f = None.
Proof. destruct f; [discriminate|reflexivity]. Qed.

(** X8.  Everything a run writes goes into the directory it has just
    made: when the engine is constructed, its [outdir] is a directory
    that [os.makedirs] created in this run, its logger is the one opened
    on [logfile.log] inside that directory, and the arguments were dumped
    to [args.txt] inside it, all of this before the engine exists. *)
Theorem outputs_inside_outdir env args lc :
  In (EvLearningCurve lc) (trace (run env args)) ->
  makedirs env (lc_outdir lc) = None /\
  In (EvMakedirs (lc_outdir lc)) (trace (run env args)) /\
  lc_logger lc = PyLogger (joinpath env (lc_outdir lc) "logfile.log") /\
  In (EvLogger (joinpath env (lc_outdir lc) "logfile.log"))
     (trace (run env args)) /\
  Logger env (joinpath env (lc_outdir lc) "logfile.log") = None /\
  In (EvDumpDict args (joinpath env (lc_outdir lc) "args.txt"))
     (trace (run env args)) /\
  dump_dict env args (joinpath env (lc_outdir lc) "args.txt") = None.
Proof.
  intros Hin.
  destruct (run_loaded_inv env args _ Hin eq_refl)
    as (d & mltype & src & data & Hd & Hml & Hload & Hlift & _
        & [Hb|[[=] _]]).
  destruct data as [[[y xd] tr] vl].
  unfold process_source in Hlift, Hb. in_trace Hb. injection Hb as ->.
  cbn [lc_outdir lc_logger].
  destruct (create_outdir_returned _ _ _ _ _ Ha0) as (Htr & Hmk).
  apply call__returned in Ha1 as HLogger.
  apply call__returned in Ha4 as Hdump.
  repeat split; auto; apply Hlift; in_body.
Qed.

Lemma outputs_inside_outdir_witness :
  exists lc,
    In (EvLearningCurve lc) (trace (run Demo.env (Demo.args "lgb_reg"))) /\
    In (EvMakedirs (lc_outdir lc)) (trace (run Demo.env (Demo.args "lgb_reg"))) /\
    lc_logger lc = PyLogger (Demo.join (lc_outdir lc) "logfile.log").
Proof.
  destruct (has_lc_call (trace (run Demo.env (Demo.args "lgb_reg"))))
    as (lc & Hin); [vm_compute; reflexivity|].
  exists lc. split; [exact Hin|].
  destruct (outputs_inside_outdir Demo.env (Demo.args "lgb_reg") lc Hin)
    as (_ & Hmk & Hlg & _).
  split; [exact Hmk | exact Hlg].
Defined.

Lemma run_returned env args :
  outcome (run env args) = inr tt ->
  exists d mltype src data,
    run env args =
    ((trace (load_data env args (Some (Path env d))) ++
      trace (process_source env args mltype (clr_keras_kwargs_of args)
                            src data) ++
      [EvPrint "Done."])%list, inr tt) /\
    outcome (process_source env args mltype (clr_keras_kwargs_of args)
                            src data) = inr tt.
Proof.
  intros Hok.
  destruct (run_structure env args)
    as [[_ Hrun]|(d & Hd & [(msg & _ & Hrun)|(mltype & Hml & Hcases)])];
    try (rewrite Hrun in Hok; discriminate).
  destruct Hcases as [(e & _ & Hrun)|(src & data & Hload & Hrun)];
    [rewrite Hrun in Hok; discriminate|].
  exists d, mltype, src, data. rewrite Hrun in Hok. cbn [outcome snd] in Hok.
  rewrite Hrun, Hok. auto.
Qed.

(** X9.  The logger is shut down exactly when the run succeeds, and
    ['Done.'] is printed exactly then.  In particular a failure of the
    training call propagates out of [run] (there is no handler) and
    leaves the logger open. *)
Theorem logger_killed_iff_success env args :
  (In EvKillLogger (trace (run env args)) <-> outcome (run env args) = inr tt) /\
  (In (EvPrint "Done.") (trace (run env args)) <->
   outcome (run env args) = inr tt) /\
  (forall lc t what,
     In (EvTrnLearningCurve lc t) (trace (run env args)) ->
     trn_learning_curve env lc t = Some what ->
     outcome (run env args) = inl (LibraryError what) /\
     ~ In EvKillLogger (trace (run env args))).
Proof.
  assert (Hkill : In EvKillLogger (trace (run env args)) ->
                  outcome (run env args) = inr tt).
  { intros Hin.
    destruct (run_loaded_inv env args _ Hin eq_refl)
      as (d & mltype & src & data & _ & _ & _ & _ & Hout & [Hb|[[=] _]]).
    rewrite Hout. destruct data as [[[y xd] tr] vl].
    unfold process_source in *. in_trace Hb.
    repeat step_outcome. reflexivity. }
  split; [|split].
  - split; [exact Hkill|]. intros Hok.
    destruct (run_returned _ _ Hok) as (d & mltype & src & data & -> & Hb).
    cbn [trace fst]. apply in_or_app. right. apply in_or_app. left.
    destruct data as [[[y xd] tr] vl]. unfold process_source in *.
    returned Hb. in_body.
  - split.
    + intros Hin.
      destruct (run_loaded_inv env args _ Hin eq_refl)
        as (d & mltype & src & data & _ & _ & _ & _ & Hout
            & [Hb|[_ ([] & Hu)]]); [|congruence].
      destruct data as [[[y xd] tr] vl].
      unfold process_source in Hb. in_trace Hb.
    + intros Hok.
      destruct (run_returned _ _ Hok) as (d & mltype & src & data & -> & _).
      cbn [trace fst]. apply in_or_app. right. apply in_or_app. right.
      now left.
  - intros lc t what Hin Hfail.
    assert (Hout : outcome (run env args) = inl (LibraryError what)).
    { destruct (run_loaded_inv env args _ Hin eq_refl)
        as (d & mltype & src & data & _ & _ & _ & _ & Hout & [Hb|[[=] _]]).
      rewrite Hout. destruct data as [[[y xd] tr] vl].
      unfold process_source in *. in_trace Hb. injection Hb as -> ->.
      repeat step_outcome.
      rewrite outcome_bind. unfold call_ at 1, call at 1.
      rewrite Hfail. reflexivity. }
    split; [exact Hout|]. intros Hk%Hkill. congruence.
Qed.

Lemma logger_killed_iff_success_witness :
  outcome (run Scenarios.env_training_fails (Demo.args "lgb_reg"))
  = inl (LibraryError "MemoryError") /\
  ~ In EvKillLogger (trace (run Scenarios.env_training_fails
                                (Demo.args "lgb_reg"))).
Proof.
  destruct (has_trn_call (trace (run Scenarios.env_training_fails
                                     (Demo.args "lgb_reg"))))
    as (lc & t & Hin); [vm_compute; reflexivity|].
  exact (proj2 (proj2 (logger_killed_iff_success
                         Scenarios.env_training_fails (Demo.args "lgb_reg")))
               lc t "MemoryError" Hin eq_refl).
Defined.

(** ** How often the engine is used *)

Lemma omap_call {C A} (f : Event -> option C) ev (ans : string + A) :
  omap f (trace (call ev ans)) = match f ev with Some c => [c] | None => [] end.
Proof. reflexivity. Qed.

Lemma omap_no_engine {C} (f : Event -> option C) (l : Trace) :
  (forall ev, is_engine ev = false -> f ev = None) ->
  Forall (fun ev => is_engine ev = false) l ->
  omap f l = [].
Proof.
  intros Hf. induction 1 as [|ev l Hev _ IH]; [reflexivity|].
  cbn. now rewrite (Hf ev Hev), IH.
Qed.

Lemma scale_no_engine env args xd :
  Forall (fun ev => is_engine ev = false) (trace (scale env args xd)).
Proof.
  apply Forall_forall. intros ev Hev%list_elem_of_In.
  now apply in_trace_scale in Hev as (? & ? & _ & _ & ->).
Qed.

Lemma create_outdir_no_engine env outdir args src :
  Forall (fun ev => is_engine ev = false)
         (trace (create_outdir env outdir args src)).
Proof.
  destruct (create_outdir_cases env outdir args src) as (dir & ->).
  now repeat constructor.
Qed.

Lemma load_data_no_engine env args d :
  Forall (fun ev => is_engine ev = false) (trace (load_data env args d)).
Proof.
  apply Forall_forall. intros ev Hev%list_elem_of_In%in_trace_load_data.
  now destruct ev.
Qed.

(** One step of counting the events that [f] selects in a sequence. *)
Ltac count_step Hf :=
  rewrite length_omap_bind;
  first
    [ rewrite (omap_no_engine _ _ Hf (scale_no_engine _ _ _))
    | rewrite (omap_no_engine _ _ Hf (create_outdir_no_engine _ _ _ _))
    | rewrite trace_ml_model_configs
    | unfold log_info, call_; rewrite omap_call ];
  cbv beta iota;
  match goal with
  | |- context [match outcome ?m with _ => _ end] =>
      destruct (outcome m)
  end;
  cbv beta iota; cbn [omap list_omap length Nat.add]; [lia|].

Lemma process_source_engine_counts env args mltype clr src data :
  (length (lc_calls (trace (process_source env args mltype clr src data)))
   <= 1)%nat /\
  (length (trn_calls (trace (process_source env args mltype clr src data)))
   <= 1)%nat.
Proof.
  destruct data as [[[y xd] tr] vl]. unfold process_source, lc_calls, trn_calls.
  split.
  - assert (Hf : forall ev, is_engine ev = false ->
                   match ev with EvLearningCurve lc => Some lc | _ => None end
                   = None) by (now intros []).
    do 11 count_step Hf.
    destruct o as [[[framework init_kwargs] fit_kwargs]|];
      [rewrite bind_ret_l | cbn; lia].
    do 2 count_step Hf.
    rewrite omap_call. cbn. lia.
  - assert (Hf : forall ev, is_engine ev = false ->
                   match ev with
                   | EvTrnLearningCurve lc t => Some (lc, t)
                   | _ => None
                   end = None) by (now intros []).
    do 11 count_step Hf.
    destruct o as [[[framework init_kwargs] fit_kwargs]|];
      [rewrite bind_ret_l | cbn; lia].
    do 2 count_step Hf.
    rewrite omap_call. cbn. lia.
Qed.

Lemma singleton_of_In {A} (l : list A) x :
  In x l -> (length l <= 1)%nat -> l = [x].
Proof.
  destruct l as [|a [|b l]]; simpl; [easy| |lia].
  now intros [->|[]].
Qed.

Lemma In_lc_calls tr lc : In (EvLearningCurve lc) tr -> In lc (lc_calls tr).
Proof.
  unfold lc_calls. induction tr as [|ev tr IH]; [easy|].
  intros [->|H]; cbn; [now left|].
  destruct ev; cbn; auto.
Qed.

Lemma In_trn_calls tr lc t :
  In (EvTrnLearningCurve lc t) tr -> In (lc, t) (trn_calls tr).
Proof.
  unfold trn_calls. induction tr as [|ev tr IH]; [easy|].
  intros [->|H]; cbn; [now left|].
  destruct ev; cbn; auto.
Qed.

(** X10.  A run uses the engine for one data source only: in every run
    the engine is constructed at most once and asked to train at most
    once; a successful run did both exactly once, training on the engine
    it constructed. *)
Theorem engine_used_once env args :
  (length (lc_calls (trace (run env args))) <= 1)%nat /\
  (length (trn_calls (trace (run env args))) <= 1)%nat /\
  (outcome (run env args) = inr tt ->
   exists lc t,
     lc_calls (trace (run env args)) = [lc] /\
     trn_calls (trace (run env args)) = [(lc, t)]).
Proof.
  assert (Hcount : (length (lc_calls (trace (run env args))) <= 1)%nat /\
                   (length (trn_calls (trace (run env args))) <= 1)%nat).
  { destruct (run_structure env args)
      as [[_ Hrun]|(d & Hd & [(msg & _ & Hrun)|(mltype & Hml & Hcases)])];
      try (rewrite Hrun; cbn; lia).
    assert (Hload : lc_calls (trace (load_data env args (Some (Path env d))))
                    = [] /\
                    trn_calls (trace (load_data env args (Some (Path env d))))
                    = []).
    { split; apply omap_no_engine;
        try apply load_data_no_engine; now intros []. }
    destruct Hload as [Hl1 Hl2].
    destruct Hcases as [(e & _ & Hrun)|(src & data & _ & Hrun)];
      rewrite Hrun; cbn [trace fst].
    { rewrite Hl1, Hl2. cbn. lia. }
    unfold lc_calls, trn_calls in *. rewrite !omap_app, !length_app, Hl1, Hl2.
    pose proof (process_source_engine_counts env args mltype
                  (clr_keras_kwargs_of args) src data) as [H1 H2].
    unfold lc_calls, trn_calls in *.
    destruct (outcome (process_source _ _ _ _ _ _)); cbn; lia. }
  destruct Hcount as [Hlc Htrn]. split; [exact Hlc|]. split; [exact Htrn|].
  intros Hok.
  assert (Hin : exists lc t,
             In (EvLearningCurve lc) (trace (run env args)) /\
             In (EvTrnLearningCurve lc t) (trace (run env args))).
  { destruct (run_returned _ _ Hok) as (d & mltype & src & data & -> & Hb).
    cbn [trace fst]. destruct data as [[[y xd] tr] vl].
    unfold process_source in *. returned Hb.
    eexists _, _. split; apply in_or_app; right; apply in_or_app; left;
      in_body. }
  destruct Hin as (lc & t & H1 & H2). exists lc, t. split.
  - apply singleton_of_In; [now apply In_lc_calls | exact Hlc].
  - apply singleton_of_In; [now apply In_trn_calls | exact Htrn].
Qed.

Lemma engine_used_once_witness :
  exists lc t,
    lc_calls (trace (run Demo.env (Demo.args "nn_reg1"))) = [lc] /\
    trn_calls (trace (run Demo.env (Demo.args "nn_reg1"))) = [(lc, t)].
Proof.
  apply (engine_used_once Demo.env (Demo.args "nn_reg1")).
  vm_compute. reflexivity.
Defined.

(** ** What the engine is given *)

Lemma getitem_column_ret df name y :
  getitem_column df name = ret y ->
  columns y <> [] /\ Forall (eq name) (columns y) /\
  length (rows y) = length (rows df).
Proof.
  unfold getitem_column.
  destruct (column_positions name (columns df) 0) as [|i pos];
    [discriminate|].
  intros [= <-]. cbn [columns rows]. repeat split.
  - discriminate.
  - apply Forall_forall. intros c [<-|Hc%in_map_iff]%list_elem_of_In;
      [reflexivity|].
    now destruct Hc as (? & <- & _).
  - now rewrite length_map.
Qed.

(** X11.  The engine is constructed on the data of the directory as
    loaded: its target frame [Y] is [meta.parquet] restricted to the
    target column (at least one column, every one named like the target,
    as many rows as the meta data), its fold lists are the frames read
    from the [tr] and the [vl] index file of the chosen fold count, in
    this order, no cross-validator is passed ([cv=None]) and the
    arguments are handed on unchanged. *)
Theorem engine_inputs env args lc :
  In (EvLearningCurve lc) (trace (run env args)) ->
  exists d meta tr vl,
    dirpath args = Some d /\
    read_parquet env (Path env (joinpath env (Path env d) "meta.parquet"))
    = inr meta /\
    getitem_column meta (target_name args) = ret (lc_Y lc) /\
    columns (lc_Y lc) <> [] /\
    Forall (eq (target_name args)) (columns (lc_Y lc)) /\
    length (rows (lc_Y lc)) = length (rows meta) /\
    read_csv env (joinpath env (Path env d)
                    (py_str (cv_folds args) ++ "fold_tr_id.csv")) = inr tr /\
    read_csv env (joinpath env (Path env d)
                    (py_str (cv_folds args) ++ "fold_vl_id.csv")) = inr vl /\
    lc_cv_lists lc = (tr, vl) /\
    lc_cv lc = PyNone /\
    lc_args lc = args.
Proof.
  intros Hin.
  destruct (run_loaded_inv env args _ Hin eq_refl)
    as (d & mltype & src & data & Hd & _ & Hload & _ & _ & [Hb|[[=] _]]).
  destruct (load_data_returned_full _ _ _ _ Hload)
    as (xd & meta & y & tr & vl & [= -> ->] & _ & Hmeta & Hy & Htr & Hvl & _).
  apply read_data_file_parquet in Hmeta.
  unfold process_source in Hb. in_trace Hb. injection Hb as ->.
  cbn [lc_Y lc_cv_lists lc_cv lc_args].
  destruct (getitem_column_ret _ _ _ Hy) as (Hne & Hall & Hrows).
  exists d, meta, tr, vl. repeat split; auto.
Qed.

Lemma engine_inputs_witness :
  exists lc,
    In (EvLearningCurve lc) (trace (run Demo.env (Demo.args "lgb_reg"))) /\
    columns (lc_Y lc) = ["AUC"] /\
    lc_cv_lists lc = (Demo.frame_ids [0%float; 1%float],
                      Demo.frame_ids [2%float]).
Proof.
  destruct (has_lc_call (trace (run Demo.env (Demo.args "lgb_reg"))))
    as (lc & Hin); [vm_compute; reflexivity|].
  exists lc. split; [exact Hin|].
  destruct (engine_inputs Demo.env (Demo.args "lgb_reg") lc Hin)
    as (d & meta & tr & vl & Hd & Hmeta & Hy & _ & _ & _ & Htr & Hvl & Hcv & _).
  injection Hd as <-. injection Hmeta as <-. injection Htr as <-.
  injection Hvl as <-. split; [|exact Hcv].
  injection Hy as <-. reflexivity.
Defined.

Lemma in_run_trn_config env args lc t :
  In (EvTrnLearningCurve lc t) (trace (run env args)) ->
  trn_model_name t = model_name args /\ trn_n_jobs t = n_jobs args /\
  ml_model_configs args (lc_X lc) (lc_logger lc) =
  ret (Some (trn_framework t, trn_init_kwargs t, trn_fit_kwargs t)).
Proof.
  intros Hin.
  apply in_run_process_source in Hin
    as (p & mltype & src & data & _ & _ & Hin); [|reflexivity].
  destruct data as [[[y xd] tr] vl].
  unfold process_source in Hin. in_trace Hin. injection Hin as -> ->.
  destruct a5 as [[[framework init_kwargs] fit_kwargs]|]; [|discriminate].
  injection Ha10 as <-. cbn. repeat split.
  rewrite (M_eta (ml_model_configs _ _ _)), trace_ml_model_configs, Ha5.
  reflexivity.
Qed.

(** X12.  For every model other than ['lgb_reg'] the training call gets
    the neural-network configuration: [init_kwargs] is exactly
    [input_dim] (the number of columns of the scaled matrix the engine
    was built on), [dr_rate], [opt_name] and the run's logger, so the
    two-input keys [in_dim_rna] and [in_dim_dsc] are never passed;
    [fit_kwargs] is exactly [batch_size], [epochs] and [verbose=1]; the
    model name and the worker count are the caller's. *)
Theorem keras_kwargs env args lc t :
  In (EvTrnLearningCurve lc t) (trace (run env args)) ->
  model_name args <> "lgb_reg" ->
  trn_init_kwargs t =
    {[ "input_dim" := PyInt (Z.of_nat (length (columns (lc_X lc))));
       "dr_rate" := PyFloat (dr_rate args);
       "opt_name" := PyStr (opt args);
       "logger" := lc_logger lc ]} /\
  trn_init_kwargs t !! "in_dim_rna" = None /\
  trn_init_kwargs t !! "in_dim_dsc" = None /\
  trn_fit_kwargs t =
    {[ "batch_size" := PyInt (batch_size args);
       "epochs" := PyInt (epochs args);
       "verbose" := PyInt 1 ]} /\
  trn_model_name t = model_name args /\
  trn_n_jobs t = n_jobs args.
Proof.
  intros Hin Hlgb.
  apply in_run_trn_config in Hin as (Hname & Hjobs & Hcfg).
  assert (Hnn : model_name args <> "nn_reg").
  { intros Hnn. rewrite ml_model_configs_nn_reg in Hcfg by exact Hnn.
    discriminate. }
  unfold ml_model_configs in Hcfg.
  rewrite (select_branch_other _ Hlgb Hnn) in Hcfg.
  injection Hcfg as _ <- <-. repeat split; auto.
Qed.

Lemma keras_kwargs_witness :
  exists lc t,
    In (EvTrnLearningCurve lc t) (trace (run Demo.env (Demo.args "nn_reg4"))) /\
    trn_init_kwargs t !! "input_dim"
    = Some (PyInt (Z.of_nat (length (columns (lc_X lc))))) /\
    trn_init_kwargs t !! "in_dim_rna" = None /\
    trn_fit_kwargs t !! "epochs" = Some (PyInt 200).
Proof.
  destruct (has_trn_call (trace (run Demo.env (Demo.args "nn_reg4"))))
    as (lc & t & Hin); [vm_compute; reflexivity|].
  exists lc, t. split; [exact Hin|].
  destruct (keras_kwargs Demo.env (Demo.args "nn_reg4") lc t Hin)
    as (Hinit & Hrna & _ & Hfit & _); [discriminate|].
  split; [now rewrite Hinit|]. split; [exact Hrna | now rewrite Hfit].
Defined.

(** X13.  For ['lgb_reg'] the training call gets the tree-model
    configuration: framework ['lightgbm'], [init_kwargs] exactly
    [n_jobs], [random_state] and the run's logger, [fit_kwargs] exactly
    [verbose=False].  The caller's worker count is thus used twice, for
    the model and for the engine. *)
Theorem lgb_kwargs env args lc t :
  In (EvTrnLearningCurve lc t) (trace (run env args)) ->
  model_name args = "lgb_reg" ->
  trn_framework t = "lightgbm" /\
  trn_init_kwargs t =
    {[ "n_jobs" := PyInt (n_jobs args);
       "random_state" := PyInt 42;
       "logger" := lc_logger lc ]} /\
  trn_fit_kwargs t = {[ "verbose" := PyBool false ]} /\
  trn_n_jobs t = n_jobs args.
Proof.
  intros Hin Hlgb.
  apply in_run_trn_config in Hin as (_ & Hjobs & Hcfg).
  unfold ml_model_configs in Hcfg. rewrite Hlgb in Hcfg.
  change (select_branch "lgb_reg") with BrLgbReg in Hcfg.
  injection Hcfg as <- <- <-. auto.
Qed.

Lemma lgb_kwargs_witness :
  exists lc t,
    In (EvTrnLearningCurve lc t) (trace (run Demo.env (Demo.args "lgb_reg"))) /\
    trn_framework t = "lightgbm" /\
    trn_init_kwargs t !! "n_jobs" = Some (PyInt 4) /\
    trn_n_jobs t = 4%Z.
Proof.
  destruct (has_trn_call (trace (run Demo.env (Demo.args "lgb_reg"))))
    as (lc & t & Hin); [vm_compute; reflexivity|].
  exists lc, t. split; [exact Hin|].
  destruct (lgb_kwargs Demo.env (Demo.args "lgb_reg") lc t Hin eq_refl)
    as (Hfw & Hinit & _ & Hjobs).
  split; [exact Hfw|]. split; [now rewrite Hinit | exact Hjobs].
Defined.

(** ** Which model names are accepted *)

Lemma append_cons (c : ascii) (s t : string) :
  (String c s ++ t)%string = String c (s ++ t)%string.
Proof. reflexivity. Qed.

Lemma prefix_spec (s1 s2 : string) :
  String.prefix s1 s2 = true <-> exists post, s2 = (s1 ++ post)%string.
Proof.
  revert s2. induction s1 as [|a s1 IH]; intros s2.
  - split; [intros _; now exists s2 | intros _; now destruct s2].
  - destruct s2 as [|b s2]; simpl;
      [split; [discriminate|intros (post & [=])]|].
    destruct (Ascii.ascii_dec a b) as [->|Hne].
    + rewrite IH. split; intros (post & H); exists post;
        rewrite append_cons in *; congruence.
    + split; [discriminate|]. intros (post & H).
      rewrite append_cons in H. congruence.
Qed.

(** [contains] is the substring test. *)
Lemma contains_spec (needle hay : string) :
  contains needle hay = true <->
  exists pre post, hay = (pre ++ needle ++ post)%string.
Proof.
  induction hay as [|c hay IH].
  - change (contains needle "")
      with (if String.prefix needle "" then true else false).
    destruct (String.prefix needle "") eqn:Hp.
    + split; [intros _|reflexivity].
      apply prefix_spec in Hp as (post & Hp). now exists "", post.
    + split; [discriminate|].
      intros ([|? ?] & post & H); [|rewrite append_cons in H; discriminate].
      assert (String.prefix needle "" = true) as Hp'
        by (apply prefix_spec; eauto).
      congruence.
  - change (contains needle (String c hay))
      with (if String.prefix needle (String c hay) then true
            else contains needle hay).
    destruct (String.prefix needle (String c hay)) eqn:Hp.
    + split; [intros _|reflexivity].
      apply prefix_spec in Hp as (post & Hp). now exists "", post.
    + rewrite IH. split.
      * intros (pre & post & ->). now exists (String c pre), post.
      * intros ([|c' pre] & post & H).
        -- assert (String.prefix needle (String c hay) = true) as Hp'
             by (apply prefix_spec; eauto).
           congruence.
        -- rewrite append_cons in H. injection H as _ ->. eauto.
Qed.

(** X14.  The model names [run] accepts are exactly those that hold
    ['reg'] or ['cls'] somewhere in their text (['lgb_reg'], but also
    ['regression'] or ['my_cls_v2']); every other name is refused with
    the [ValueError].  When both occur, ['reg'] wins. *)
Theorem derive_mltype_accepts (name : string) :
  ((exists mltype, derive_mltype name = ret mltype) <->
   exists pre post,
     name = (pre ++ "reg" ++ post)%string \/
     name = (pre ++ "cls" ++ post)%string) /\
  ((forall mltype, derive_mltype name <> ret mltype) ->
   derive_mltype name =
   raise (ValueError "model_name must contain 'reg' or 'cls'.")) /\
  (forall pre post,
     name = (pre ++ "reg" ++ post)%string -> derive_mltype name = ret "reg").
Proof.
  unfold derive_mltype. split; [|split].
  - destruct (contains "reg" name) eqn:Hreg.
    { split; [intros _|eauto].
      apply contains_spec in Hreg as (pre & post & ->). eauto. }
    destruct (contains "cls" name) eqn:Hcls.
    { split; [intros _|eauto].
      apply contains_spec in Hcls as (pre & post & ->). eauto. }
    split; [intros (? & [=])|].
    intros (pre & post & [H|H]).
    + assert (contains "reg" name = true) by (apply contains_spec; eauto).
      congruence.
    + assert (contains "cls" name = true) by (apply contains_spec; eauto).
      congruence.
  - intros Hno. destruct (contains "reg" name); [now destruct (Hno "reg")|].
    destruct (contains "cls" name); [now destruct (Hno "cls")|reflexivity].
  - intros pre post H.
    assert (contains "reg" name = true) as -> by (apply contains_spec; eauto).
    reflexivity.
Qed.

Lemma derive_mltype_accepts_witness :
  derive_mltype "cls_on_regression" = ret "reg" /\
  derive_mltype "random_forest" =
  raise (ValueError "model_name must contain 'reg' or 'cls'.").
Proof.
  split.
  - apply (proj2 (proj2 (derive_mltype_accepts "cls_on_regression"))
                 "cls_on_" "ression").
    reflexivity.
  - apply (proj1 (proj2 (derive_mltype_accepts "random_forest"))).
    intros mltype. vm_compute. discriminate.
Defined.

(** ** Every way [run] can fail *)

Lemma select_branch_not_none name : select_branch name <> BrNone.
Proof.
  unfold select_branch, cond_nn_reg012, py_or, py_eq_str.
  destruct (truthy (PyBool (String.eqb name "lgb_reg"))); [discriminate|].
  destruct (truthy (PyBool (String.eqb name "nn_reg"))); [discriminate|].
  destruct (String.eqb name "nn_reg0"); discriminate.
Qed.

(** X15.  The exceptions that can leave [run] are: the [TypeError] of
    [Path(None)] or of subscripting a missing meta frame; the
    [ValueError] of the [mltype] test or of a scaled matrix whose shape
    does not fit the columns; [NameError] for [attn]; [KeyError] for the
    target; [AttributeError] for [columns] or [fit_transform]; and
    failures inside a library.  In particular neither of the two locals
    that a branch may leave unassigned ([df], [framework]) is ever read
    unassigned. *)
Theorem run_error_taxonomy env args e :
  outcome (run env args) = inl e ->
  e = TypeError \/
  e = ValueError "model_name must contain 'reg' or 'cls'." \/
  e = ValueError "Shape of passed values" \/
  e = NameError "attn" \/
  e = KeyError (target_name args) \/
  e = AttributeError "columns" \/
  e = AttributeError "fit_transform" \/
  exists what, e = LibraryError what.
Proof.
  unfold run, Path_of, derive_mltype, load_data, read_data_file,
    getitem_column, process_source, scale, pd_DataFrame, create_outdir,
    ml_model_configs.
  intros H. raised H.
  all: try (injection H as <-).
  all: try match goal with
           | E : select_branch _ = BrNone |- _ =>
               now apply select_branch_not_none in E
           | E : String.eqb "parquet" "parquet" = false |- _ => discriminate E
           | E : String.eqb "parquet" "csv" = true |- _ => discriminate E
           | E : Some _ = None |- _ => discriminate E
           end.
  all: try (subst e).
  all: try match goal with
           | Hc : outcome (match select_branch ?n with _ => _ end) = inr None
             |- _ =>
               destruct (select_branch n) eqn:Eb; try discriminate Hc;
               now apply select_branch_not_none in Eb
           end.
  all: eauto 12.
Qed.

Lemma run_error_taxonomy_witness :
  outcome (run Demo.env (Scenarios.args_with "lgb_reg" "IC50" (Some "stnd")))
  = inl (KeyError "IC50") /\
  (KeyError "IC50" = TypeError \/
   KeyError "IC50" = ValueError "model_name must contain 'reg' or 'cls'." \/
   KeyError "IC50" = ValueError "Shape of passed values" \/
   KeyError "IC50" = NameError "attn" \/
   KeyError "IC50" = KeyError "IC50" \/
   KeyError "IC50" = AttributeError "columns" \/
   KeyError "IC50" = AttributeError "fit_transform" \/
   exists what, KeyError "IC50" = LibraryError what).
Proof.
  assert (Hout : outcome (run Demo.env
                            (Scenarios.args_with "lgb_reg" "IC50" (Some "stnd")))
                 = inl (KeyError "IC50")) by (vm_compute; reflexivity).
  split; [exact Hout|].
  exact (run_error_taxonomy Demo.env
           (Scenarios.args_with "lgb_reg" "IC50" (Some "stnd")) _ Hout).
Defined.

(** ** The name of the output directory *)

Lemma split_underscore_0_no_underscore s :
  contains "_" (split_underscore_0 s) = false.
Proof.
  induction s as [|c s IH]; [reflexivity|].
  cbn [split_underscore_0]. destruct (Ascii.eqb_spec c "_"%char) as [->|Hne];
    [reflexivity|].
  change (contains "_" (String c (split_underscore_0 s)))
    with (if String.prefix "_" (String c (split_underscore_0 s)) then true
          else contains "_" (split_underscore_0 s)).
  cbn [String.prefix].
  destruct (Ascii.ascii_dec "_" c) as [<-|_]; [congruence|exact IH].
Qed.

Lemma split_underscore_0_prefix s :
  exists rest,
    s = (split_underscore_0 s ++ rest)%string /\
    (rest = "" \/ exists rest', rest = String "_" rest').
Proof.
  induction s as [|c s (rest & IH & Hrest)].
  - exists "". auto.
  - cbn [split_underscore_0]. destruct (Ascii.eqb_spec c "_"%char) as [->|Hne].
    + exists (String "_" s). split; [reflexivity|]. right. eauto.
    + exists rest. rewrite append_cons, <- IH. auto.
Qed.

Lemma create_outdir_path env outdir args src :
  trace (create_outdir env outdir args src) =
  [EvMakedirs
     (joinpath env (Path env outdir)
        (String.concat "."
           (src :: model_name args ::
            (if contains "nn" (model_name args) then [opt args] else []) ++
            match clr_mode args with Some m => [m] | None => [] end ++
            ("cvf" ++ py_str (cv_folds args))%string ::
            cell_features args ++ drug_features args ++ [target_name args])
         ++ "_" ++ timestamp (now env)))].
Proof.
  unfold create_outdir. cbv zeta. rewrite trace_bind.
  unfold call_ at 1 2, call at 1 2, trace at 1 2, outcome at 1. cbn [fst snd].
  destruct (makedirs env _); cbn [trace ret fst app].
  all: destruct (contains "nn" (model_name args));
    destruct (clr_mode args); reflexivity.
Qed.

(** X16.  The output directory of a run is
    [OUTDIR/<src>.<model>[.<opt>][.<clr_mode>].cvf<folds>.<cell
    features>.<drug features>.<target>_<time stamp>]: [src] is the name
    of the data directory up to its first underscore (so it holds none),
    the optimizer is part of the name exactly for model names that hold
    ['nn'] and comes before the CLR mode, which is present exactly when
    it is not [None]. *)
Theorem outdir_name env args p :
  In (EvMakedirs p) (trace (run env args)) ->
  exists d src rest,
    dirpath args = Some d /\
    path_name env (Path env d) = (src ++ rest)%string /\
    (rest = "" \/ exists rest', rest = String "_" rest') /\
    contains "_" src = false /\
    p = joinpath env (Path env (OUTDIR env))
          (String.concat "."
             (src :: model_name args ::
              (if contains "nn" (model_name args) then [opt args] else []) ++
              match clr_mode args with Some m => [m] | None => [] end ++
              ("cvf" ++ py_str (cv_folds args))%string ::
              cell_features args ++ drug_features args ++ [target_name args])
           ++ "_" ++ timestamp (now env)).
Proof.
  intros Hin.
  destruct (run_loaded_inv env args _ Hin eq_refl)
    as (d & mltype & src & data & Hd & _ & Hload & _ & _ & [Hb|[[=] _]]).
  destruct (load_data_returned_full _ _ _ _ Hload)
    as (xd & meta & y & tr & vl & [= -> ->] & _).
  destruct (split_underscore_0_prefix (path_name env (Path env d)))
    as (rest & Hname & Hrest).
  exists d, (split_underscore_0 (path_name env (Path env d))), rest.
  repeat split; auto using split_underscore_0_no_underscore.
  unfold process_source in Hb.
  apply in_trace_bind in Hb as [Hb|(scaled & _ & Hb)].
  { apply in_trace_scale in Hb as (? & ? & _ & _ & [=]). }
  apply in_trace_bind in Hb as [Hb|(dir & _ & Hb)].
  - rewrite create_outdir_path in Hb. destruct Hb as [[= <-]|[]].
    reflexivity.
  - in_trace Hb.
Qed.

Lemma outdir_name_witness :
  exists p,
    In (EvMakedirs p)
       (trace (run Demo.env (Scenarios.args_with "nn_reg0" "AUC" (Some "stnd"))))
    /\ p = "/repo/src/LearningCurves/../../out//LearningCurves/ccle.nn_reg0.sgd.trng1.cvf5.rna.dsc.AUC_2019-7-4_h9-m30".
Proof.
  assert (Hin : In (EvMakedirs "/repo/src/LearningCurves/../../out//LearningCurves/ccle.nn_reg0.sgd.trng1.cvf5.rna.dsc.AUC_2019-7-4_h9-m30")
                   (trace (run Demo.env
                             (Scenarios.args_with "nn_reg0" "AUC" (Some "stnd"))))).
  { vm_compute. do 7 right. left. reflexivity. }
  eexists. split; [exact Hin|].
  destruct (outdir_name Demo.env
              (Scenarios.args_with "nn_reg0" "AUC" (Some "stnd")) _ Hin)
    as (d & src & rest & _ & _ & _ & _ & Hp).
  reflexivity.
Defined.

(* ===================================================================== *)
(** ** Feature scaling: once, by the selected scaler, before the engine *)
(* ===================================================================== *)

Lemma filter_load_data env args d :
  List.filter is_fit_transform (trace (load_data env args d)) = [].
Proof.
  apply filter_none, Forall_forall.
  intros ev Hev%list_elem_of_In%in_trace_load_data. now destruct ev.
Qed.

Lemma run_fit_transform_count env args :
  (length (List.filter is_fit_transform (trace (run env args))) <= 1)%nat.
Proof.
  destruct (run_structure env args)
    as [[_ Hrun]|(d & Hd & [(msg & _ & Hrun)|(mltype & Hml & Hcases)])];
    try (rewrite Hrun; cbn; lia).
  destruct Hcases as [(e & _ & Hrun)|(src & data & _ & Hrun)];
    rewrite Hrun; cbn [trace fst].
  { rewrite filter_load_data. cbn. lia. }
  rewrite !List.filter_app, !length_app, filter_load_data.
  pose proof (process_source_fit_transform_count env args mltype
                (clr_keras_kwargs_of args) src data) as Hcount.
  destruct (outcome (process_source _ _ _ _ _ _)); cbn; lia.
Qed.

Lemma lc_calls_run_unique env args lc lc' :
  In (EvLearningCurve lc) (trace (run env args)) ->
  In (EvLearningCurve lc') (trace (run env args)) ->
  lc' = lc.
Proof.
  intros H H'.
  assert (Hcount : (length (lc_calls (trace (run env args))) <= 1)%nat).
  { destruct (run_structure env args)
      as [[_ Hrun]|(d & Hd & [(msg & _ & Hrun)|(mltype & Hml & Hcases)])];
      try (rewrite Hrun; cbn; lia).
    assert (Hload : lc_calls (trace (load_data env args (Some (Path env d))))
                    = []).
    { apply omap_no_engine; [now intros []|apply load_data_no_engine]. }
    destruct Hcases as [(e & _ & Hrun)|(src & data & _ & Hrun)];
      rewrite Hrun; cbn [trace fst].
    { rewrite Hload. cbn. lia. }
    unfold lc_calls in *. rewrite !omap_app, !length_app, Hload.
    pose proof (process_source_engine_counts env args mltype
                  (clr_keras_kwargs_of args) src data) as [H1 _].
    unfold lc_calls in *.
    destruct (outcome (process_source _ _ _ _ _ _)); cbn; lia. }
  apply In_lc_calls in H, H'.
  rewrite (singleton_of_In _ _ H Hcount) in H'. now destruct H' as [<-|[]].
Qed.

Lemma in_run_trn_lc env args lc t :
  In (EvTrnLearningCurve lc t) (trace (run env args)) ->
  In (EvLearningCurve lc) (trace (run env args)).
Proof.
  intros Hin.
  destruct (run_loaded_inv env args _ Hin eq_refl)
    as (d & mltype & src & data & _ & _ & _ & Hsub & _ & [Hps|[[=] _]]).
  now apply Hsub, in_process_source_trn_lc with (t := t).
Qed.

(** C5.  No run applies [fit_transform] more than once.  Whenever [run]
    constructs the engine for a data source, the trace holds exactly one
    [fit_transform]; it is applied by the scaler that [args['scaler']]
    selects (['stnd'], ['minmax'], ['rbst']) to the whole feature matrix
    as read from [xdata.parquet]; it precedes every engine event; the
    matrix given to the engine is what [fit_transform] answered, cast to
    [float32], under the column names of the matrix read, in their
    order; and the engine that is asked to train is this one.  A data
    source that was loaded with its feature matrix is transformed exactly
    once by the scaler named, also when the run fails later. *)
Theorem scaled_once_before_engine env args :
  (length (List.filter is_fit_transform (trace (run env args))) <= 1)%nat /\
  (forall lc,
     In (EvLearningCurve lc) (trace (run env args)) ->
     exists d name sc x arr pre post,
       dirpath args = Some d /\
       scaler args = Some name /\
       (name = "stnd" /\ sc = StandardScaler \/
        name = "minmax" /\ sc = MinMaxScaler \/
        name = "rbst" /\ sc = RobustScaler) /\
       read_parquet env (Path env (joinpath env (Path env d) "xdata.parquet"))
       = inr x /\
       trace (run env args) = (pre ++ EvFitTransform sc x :: post)%list /\
       Forall (fun ev => is_fit_transform ev = false /\ is_engine ev = false)
              pre /\
       Forall (fun ev => is_fit_transform ev = false) post /\
       In (EvLearningCurve lc) post /\
       fit_transform env sc x = inr arr /\
       Forall (fun r => length r = length (columns x)) arr /\
       lc_X lc = {| columns := columns x;
                    rows := List.map (List.map (astype_float32 env)) arr |} /\
       columns (lc_X lc) = columns x /\
       forall lc' t,
         In (EvTrnLearningCurve lc' t) (trace (run env args)) ->
         lc' = lc /\ In (EvTrnLearningCurve lc' t) post) /\
  (forall d dfs name sc,
     dirpath args = Some d ->
     contains "reg" (model_name args) = true \/
     contains "cls" (model_name args) = true ->
     outcome (load_data env args (Some (Path env d))) = inr dfs ->
     is_file env (Path env (joinpath env (Path env d) "xdata.parquet"))
     = true ->
     scaler args = Some name ->
     name = "stnd" /\ sc = StandardScaler \/
     name = "minmax" /\ sc = MinMaxScaler \/
     name = "rbst" /\ sc = RobustScaler ->
     exists x,
       read_parquet env (Path env (joinpath env (Path env d) "xdata.parquet"))
       = inr x /\
       List.filter is_fit_transform (trace (run env args))
       = [EvFitTransform sc x]).
Proof.
  split; [apply run_fit_transform_count|]. split.
  - intros lc Hin.
    destruct (run_structure env args)
      as [[_ Hrun]|(d & Hd & [(msg & _ & Hrun)|(mltype & Hml & Hcases)])];
      try (rewrite Hrun in Hin; destruct Hin).
    destruct Hcases as [(e & _ & Hrun)|(src & data & Hload & Hrun)].
    { rewrite Hrun in Hin. apply in_trace_load_data in Hin. discriminate. }
    destruct data as [[[y xd] tr] vl].
    assert (Hps : In (EvLearningCurve lc)
                     (trace (process_source env args mltype
                               (clr_keras_kwargs_of args) src
                               (y, xd, tr, vl)))).
    { rewrite Hrun in Hin. cbn [trace fst] in Hin.
      apply in_app_or in Hin as [Hin%in_trace_load_data|Hin];
        [discriminate|].
      apply in_app_or in Hin as [Hin|Hin]; [exact Hin|].
      destruct (outcome (process_source _ _ _ _ _ _));
        [destruct Hin|now destruct Hin as [[=]|[]]]. }
    pose proof Hrun as Htrace. apply (f_equal fst) in Htrace.
    cbn [fst] in Htrace. fold (trace (run env args)) in Htrace.
    apply process_source_scaled_once in Hps
      as (sc & x & arr & rest & -> & Hsel & Htr & Hrest & Hlc & Hfit & Hshape
          & HX).
    apply select_scaler_obj in Hsel as (name & Hname & Hsc).
    apply load_data_returned in Hload as Hdfs.
    destruct Hdfs as (src' & y' & xd' & tr' & vl' & [= <- <- <- <- <-] & Hread).
    apply read_data_file_parquet in Hread.
    rewrite Htr in Htrace.
    exists d, name, sc, x, arr,
      (trace (load_data env args (Some (Path env d)))).
    eexists. split; [exact Hd|]. split; [exact Hname|].
    split; [exact Hsc|]. split; [exact Hread|].
    split; [exact Htrace|].
    split.
    { apply Forall_forall. intros ev Hev%list_elem_of_In%in_trace_load_data.
      now destruct ev. }
    split.
    { apply Forall_app. split; [exact Hrest|].
      destruct (outcome (process_source _ _ _ _ _ _)); repeat constructor. }
    split; [apply in_or_app; now left|].
    split; [exact Hfit|]. split; [exact Hshape|]. split; [exact HX|].
    split; [now rewrite HX|].
    intros lc' t Htrn. split.
    + apply (lc_calls_run_unique env args); [exact Hin|].
      now apply in_run_trn_lc with (t := t).
    + rewrite Htrace in Htrn.
      apply in_app_or in Htrn as [Htrn%in_trace_load_data|Htrn];
        [discriminate|].
      now destruct Htrn as [[=]|Htrn].
  - intros d dfs name sc Hd Hml Hload Hfile Hname Hsc.
    apply load_data_returned in Hload as Hdfs.
    destruct Hdfs as (src & y & xd & tr & vl & -> & Hread).
    destruct (read_data_file_some _ _ _ Hfile Hread) as (x & ->).
    apply read_data_file_parquet in Hread. exists x. split; [exact Hread|].
    assert (Hsel : select_scaler (scaler args) = SvObj sc).
    { rewrite Hname.
      destruct Hsc as [[-> ->]|[[-> ->]|[-> ->]]]; reflexivity. }
    apply singleton_of_In.
    2: apply run_fit_transform_count.
    apply filter_In. split; [|reflexivity].
    destruct (run_structure env args)
      as [[Hn _]|(d' & Hd' & [(msg & Hv & _)|(mltype & _ & Hcases)])].
    + congruence.
    + apply derive_mltype_ok in Hml as (mltype & Hml). rewrite Hml in Hv.
      discriminate.
    + assert (d' = d) as -> by congruence.
      destruct Hcases as [(e' & He' & _)|(src' & data & Hok & Hrun)];
        [congruence|].
      rewrite Hload in Hok. injection Hok as <- <-. rewrite Hrun.
      cbn [trace fst]. apply in_or_app. right. apply in_or_app. left.
      unfold process_source. apply in_trace_bind_l.
      unfold scale. rewrite Hsel. apply in_trace_bind_l. now left.
Qed.

Lemma scaled_once_before_engine_witness :
  exists lc pre post,
    In (EvLearningCurve lc)
       (trace (run Scenarios.env_scaling (Demo.args "lgb_reg"))) /\
    trace (run Scenarios.env_scaling (Demo.args "lgb_reg"))
    = (pre ++ EvFitTransform StandardScaler Demo.frame_x :: post)%list /\
    In (EvLearningCurve lc) post /\
    lc_X lc = {| columns := ["g1"; "g2"];
                 rows := [[0.5%float; 1%float]; [1.5%float; 2%float];
                          [2.5%float; 3%float]] |} /\
    List.filter is_fit_transform
      (trace (run Scenarios.env_scaling (Demo.args "lgb_reg")))
    = [EvFitTransform StandardScaler Demo.frame_x].
Proof.
  destruct (has_lc_call (trace (run Scenarios.env_scaling
                                  (Demo.args "lgb_reg"))))
    as (lc & Hin); [vm_compute; reflexivity|].
  destruct (scaled_once_before_engine Scenarios.env_scaling
              (Demo.args "lgb_reg")) as (_ & Hengine & Hsource).
  destruct (Hengine lc Hin)
    as (d & name & sc & x & arr & pre & post & Hd & Hname & Hsc & Hx & Htr
        & _ & _ & Hpost & Hfit & _ & HX & _).
  injection Hname as <-. destruct Hsc as [[_ ->]|[[[=] _]|[[=] _]]].
  injection Hd as <-. injection Hx as <-. injection Hfit as <-.
  assert (Hload : exists dfs,
             outcome (load_data Scenarios.env_scaling (Demo.args "lgb_reg")
                        (Some (Path Scenarios.env_scaling
                                 "/data/ccle_cv_simple"))) = inr dfs)
    by (vm_compute; eexists; reflexivity).
  destruct Hload as (dfs & Hload).
  destruct (Hsource "/data/ccle_cv_simple" dfs "stnd" StandardScaler
              eq_refl (or_introl eq_refl) Hload eq_refl eq_refl
              (or_introl (conj eq_refl eq_refl)))
    as (x & Hx & Hone).
  injection Hx as <-.
  exists lc, pre, post. auto.
Defined.
